(** * Paper-Patrol: the classification-and-routing pipeline of
    [lambda_function.py], embedded in Rocq.

    The Python module fetches yesterday's arXiv papers of a category, asks a
    chat model to annotate each one, and posts a Slack message to a channel
    chosen from the annotation.  The embedding keeps the module's seven
    functions under their own names.  Exceptions are explicit ([exn + A]);
    the calls that leave the process (arXiv search, chat completion, HTTP
    POST) are recorded, in order, in a trace of requests, and answered by
    the host environment [Env]. *)

From Stdlib Require Import String Ascii ZArith List Bool Lia DecimalString.
Import ListNotations.
Open Scope string_scope.
Open Scope Z_scope.

(** ** Python values *)

(** The objects the module handles: what [json.loads] can return and what
    [json.dumps] is given.  A dict is an association list in insertion
    order with distinct keys; JSON keys are always [str].  A float is kept
    as the text [repr] prints for it. *)
#[warnings="-register-all"]
Inductive value : Type :=
| VNone
| VBool (b : bool)
| VInt (z : Z)
| VFloat (repr : string)
| VStr (s : string)
| VList (l : list value)
| VDict (d : list (string * value)).

Definition nl : string := String (ascii_of_nat 10) EmptyString.

(** [d[k]] on the association list. *)
Fixpoint dict_get (k : string) (d : list (string * value)) : option value :=
  match d with
  | [] => None
  | (k', v) :: d' => if String.eqb k k' then Some v else dict_get k d'
  end.

(** [d[k] = v]: an existing key keeps its place, a new key goes last. *)
Fixpoint dict_set (k : string) (v : value) (d : list (string * value))
  : list (string * value) :=
  match d with
  | [] => [(k, v)]
  | (k', v') :: d' =>
      if String.eqb k k' then (k', v) :: d' else (k', v') :: dict_set k v d'
  end.

(** [d.update(other)]: the items of [other] are stored in order. *)
Definition dict_update (d other : list (string * value)) : list (string * value) :=
  fold_left (fun acc kv => dict_set (fst kv) (snd kv) acc) other d.

(** [v == 'literal']: only a [str] can equal a [str] literal. *)
Definition py_eq_str (v : value) (lit : string) : bool :=
  match v with
  | VStr s => String.eqb s lit
  | _ => false
  end.

(** ** Exceptions *)

(** The exception classes that can travel through the module.  Message
    texts depend on the interpreter version and are left to [exn_str] of the
    environment.  [LibraryError cls msg] is an exception raised inside one
    of the client libraries (arxiv, openai, requests); like the others it
    derives from [Exception]. *)
Inductive exn : Type :=
| JSONDecodeError (msg doc : string) (pos : Z)
| KeyError (key : value)
| IndexError
| TypeError
| AttributeError
| UnboundLocalError (name : string)
| OverflowError
| LibraryError (cls msg : string).

Definition exn_class (e : exn) : string :=
  match e with
  | JSONDecodeError _ _ _ => "JSONDecodeError"
  | KeyError _ => "KeyError"
  | IndexError => "IndexError"
  | TypeError => "TypeError"
  | AttributeError => "AttributeError"
  | UnboundLocalError _ => "UnboundLocalError"
  | OverflowError => "OverflowError"
  | LibraryError cls _ => cls
  end.

(** [obj[k]] with a [str] subscript. *)
Definition getitem_str (obj : value) (k : string) : exn + value :=
  match obj with
  | VDict d =>
      match dict_get k d with
      | Some v => inr v
      | None => inl (KeyError (VStr k))
      end
  | _ => inl TypeError
  end.

(** [obj[i]] with an [int] subscript; a negative index counts from the end. *)
Definition getitem_int (obj : value) (i : Z) : exn + value :=
  match obj with
  | VList l =>
      let n := Z.of_nat (length l) in
      let j := if i <? 0 then i + n else i in
      if (0 <=? j) && (j <? n)
      then match nth_error l (Z.to_nat j) with
           | Some v => inr v
           | None => inl IndexError
           end
      else inl IndexError
  | VStr s =>
      let n := Z.of_nat (String.length s) in
      let j := if i <? 0 then i + n else i in
      if (0 <=? j) && (j <? n)
      then match String.get (Z.to_nat j) s with
           | Some c => inr (VStr (String c EmptyString))
           | None => inl IndexError
           end
      else inl IndexError
  | VDict _ => inl (KeyError (VInt i))
  | _ => inl TypeError
  end.

(** ** Calendar dates ([datetime.date], [datetime.datetime]) *)

Record date : Type := { year : Z; month : Z; day : Z }.

Record datetime : Type :=
  { dt_year : Z; dt_month : Z; dt_day : Z;
    dt_hour : Z; dt_minute : Z; dt_second : Z; dt_microsecond : Z }.

(** [dt.date()]: the calendar day, the time of day dropped. *)
Definition datetime_date (dt : datetime) : date :=
  {| year := dt_year dt; month := dt_month dt; day := dt_day dt |}.

(** [d1 == d2] on dates. *)
Definition date_eqb (a b : date) : bool :=
  (year a =? year b) && (month a =? month b) && (day a =? day b).

Definition is_leap (y : Z) : bool :=
  (y mod 4 =? 0) && (negb (y mod 100 =? 0) || (y mod 400 =? 0)).

Definition days_before_year (y : Z) : Z :=
  let p := y - 1 in p * 365 + p / 4 - p / 100 + p / 400.

Definition DAYS_IN_MONTH : list Z :=
  [-1; 31; 28; 31; 30; 31; 30; 31; 31; 30; 31; 30; 31].

Definition DAYS_BEFORE_MONTH : list Z :=
  [-1; 0; 31; 59; 90; 120; 151; 181; 212; 243; 273; 304; 334].

Definition days_before_month (y m : Z) : Z :=
  nth (Z.to_nat m) DAYS_BEFORE_MONTH 0 + (if (2 <? m) && is_leap y then 1 else 0).

(** [d.toordinal()]: day 1 is 0001-01-01. *)
Definition toordinal (d : date) : Z :=
  days_before_year (year d) + days_before_month (year d) (month d) + day d.

Definition MAXORDINAL : Z := 3652059.

(** [date.fromordinal(n)]. *)
Definition fromordinal (n : Z) : date :=
  let n := n - 1 in
  let n400 := n / 146097 in
  let n := n mod 146097 in
  let y := n400 * 400 + 1 in
  let n100 := n / 36524 in
  let n := n mod 36524 in
  let n4 := n / 1461 in
  let n := n mod 1461 in
  let n1 := n / 365 in
  let n := n mod 365 in
  let y := y + n100 * 100 + n4 * 4 + n1 in
  if (n1 =? 4) || (n100 =? 4)
  then {| year := y - 1; month := 12; day := 31 |}
  else
    let leapyear := (n1 =? 3) && (negb (n4 =? 24) || (n100 =? 3)) in
    let m := Z.shiftr (n + 50) 5 in
    let preceding :=
      nth (Z.to_nat m) DAYS_BEFORE_MONTH 0
      + (if (2 <? m) && leapyear then 1 else 0) in
    if n <? preceding
    then
      let m' := m - 1 in
      let preceding' :=
        preceding
        - (nth (Z.to_nat m') DAYS_IN_MONTH 0
           + (if (m' =? 2) && leapyear then 1 else 0)) in
      {| year := y; month := m'; day := n - preceding' + 1 |}
    else {| year := y; month := m; day := n - preceding + 1 |}.

(** [d - timedelta(days=n)]. *)
Definition date_sub_days (d : date) (n : Z) : exn + date :=
  let o := toordinal d - n in
  if (0 <? o) && (o <=? MAXORDINAL) then inr (fromordinal o) else inl OverflowError.

(** ** The outside world *)

(** An entry of the arXiv feed ([arxiv.Result]), with the fields the module
    reads. *)
Record Author : Type := { name : string }.

Record arxiv_Result : Type :=
  { entry_id : string;
    title : string;
    summary : string;
    authors : list Author;
    published : datetime }.

Inductive SortCriterion : Type := Relevance | LastUpdatedDate | SubmittedDate.

(** The keyword arguments of [openai.ChatCompletion.create]. *)
Record ChatRequest : Type :=
  { model : string;
    max_tokens : Z;
    temperature : Z;
    messages : value }.

(** What [requests.post] hands back ([requests.Response]). *)
Record Response : Type := { status_code : Z; text : string }.

(** One request leaving the process.  [HttpPost] also keeps the channel name
    for which the hook was looked up: the three hooks of the source are the
    same placeholder text. *)
Inductive event : Type :=
| ArxivSearch (query : string) (max_results : Z) (sort_by : SortCriterion)
| ChatCompletion (req : ChatRequest)
| HttpPost (channel web_hook data : string).

(** The requests made so far, oldest first. *)
Definition World : Type := list event.

(** The host: the clock, the three providers, and the parts of the Python
    library whose text output is not fixed by the module.  A provider sees
    the requests made before the current one and either raises or answers.
    [json_decode] is the scanner behind [json.loads]: the parsed object, or
    the message and position of the syntax error (interpreter limits such as
    the recursion depth are not modelled).  [json_dumps] and [py_repr] are
    total: every [value] can be serialised and printed. *)
Record Env : Type :=
  { date_today : date;
    arxiv_results : World -> string -> Z -> SortCriterion -> exn + list arxiv_Result;
    openai_create : World -> ChatRequest -> exn + value;
    requests_post : World -> string -> string -> exn + Response;
    json_decode : string -> (string * Z) + value;
    json_dumps : value -> string;
    py_repr : value -> string;
    exn_str : exn -> string }.

(** ** Computations: a trace of requests and an exception or a result *)

Definition M (A : Type) : Type := World -> (exn + A) * World.

Definition ret {A} (a : A) : M A := fun w => (inr a, w).

Definition raise {A} (e : exn) : M A := fun w => (inl e, w).

Definition bind {A B} (m : M A) (k : A -> M B) : M B :=
  fun w =>
    match m w with
    | (inl e, w') => (inl e, w')
    | (inr a, w') => k a w'
    end.

(** A step that cannot touch the world. *)
Definition lift {A} (r : exn + A) : M A := fun w => (r, w).

Declare Scope py_scope.
Delimit Scope py_scope with py.
Notation "x <- m ;; k" := (bind m (fun x => k))
  (at level 100, m at next level, right associativity) : py_scope.
Notation "m ;; k" := (bind m (fun _ => k))
  (at level 100, right associativity) : py_scope.
Open Scope py_scope.

(** ** The module *)

Section Pipeline.

Variable E : Env.

(** Leaving the process: the request joins the trace, the provider, shown
    the earlier requests, raises or answers. *)
Definition Search_results (query : string) (max_results : Z) (sort_by : SortCriterion)
  : M (list arxiv_Result) :=
  fun w => (arxiv_results E w query max_results sort_by,
            (w ++ [ArxivSearch query max_results sort_by])%list).

Definition ChatCompletion_create (req : ChatRequest) : M value :=
  fun w => (openai_create E w req, (w ++ [ChatCompletion req])%list).

Definition requests_post_for (channel web_hook data : string) : M Response :=
  fun w => (requests_post E w web_hook data, (w ++ [HttpPost channel web_hook data])%list).

(** [str(v)], which is what an f-string field [{v}] inserts. *)
Definition py_str (v : value) : string :=
  match v with
  | VNone => "None"
  | VBool true => "True"
  | VBool false => "False"
  | VInt z => NilEmpty.string_of_int (Z.to_int z)
  | VFloat r => r
  | VStr s => s
  | VList _ | VDict _ => py_repr E v
  end.

(** [json.loads(s)]. *)
Definition json_loads (s : value) : exn + value :=
  match s with
  | VStr doc =>
      match json_decode E doc with
      | inl (msg, pos) => inl (JSONDecodeError msg doc pos)
      | inr v => inr v
      end
  | _ => inl TypeError
  end.

(** The loop of [obtain_latest_papers] over the returned papers, with the
    list [same_day_papers] built so far. *)
Fixpoint same_day_loop (latest_date : date) (results same_day_papers : list arxiv_Result)
  : list arxiv_Result :=
  match results with
  | [] => same_day_papers
  | paper :: rest =>
      let submission_date := datetime_date (published paper) in
      if date_eqb submission_date latest_date
      then same_day_loop latest_date rest ((same_day_papers ++ [paper])%list)
      else same_day_loop latest_date rest same_day_papers
  end.

Definition obtain_latest_papers (category : string) (max_results : Z)
  : M (list arxiv_Result) :=
  results <- Search_results ("cat:" ++ category) max_results SubmittedDate ;;
  latest_date <- lift (date_sub_days (date_today E) 1) ;;
  ret (same_day_loop latest_date results []).

Definition get_gpt_reply (message : string) : M value :=
  let message := VList [VDict [("role", VStr "user"); ("content", VStr message)]] in
  response <- ChatCompletion_create
                {| model := "gpt-3.5-turbo";
                   max_tokens := 1000;
                   temperature := 0;
                   messages := message |} ;;
  choices <- lift (getitem_str response "choices") ;;
  choice <- lift (getitem_int choices 0) ;;
  message <- lift (getitem_str choice "message") ;;
  lift (getitem_str message "content").

(** The f-string of [ask_gpt]; a backslash at the end of a source line
    joins it to the next one. *)
Definition prompt_of (title abstract : string) : string :=
  nl ++
  "    Can you read the following title and abstract of an academic paper, and tell me the following questions? " ++
  "    If a question is not applicable, return null." ++ nl ++
  "    " ++ nl ++
  "    - Type: Is this work mainly focused on theoretical proposals (including quantum algorithms) or actual quantum" ++
  "     hardware experiments? Return 'Theory' or 'Experiment'." ++ nl ++
  "    - Platform: If it is an experiment result, what type of hardware is the experiment implemented with? Return" ++
  "     'Superconducting circuits', 'Spin qubits', 'Ion trap', 'Photonics', or 'Others:<The type of the hardware>'." ++ nl ++
  "    - Topic: If it is about a quantum algorithm, does it fall into the following categories? Return category " ++
  "    'Error-correction', 'Fault-tolerated quantum algorithms', 'Near-term quantum algorithms', or" ++
  "     'Others:<A category within two words>'." ++ nl ++
  "    - Summary: Write a one-sentence summary about this work." ++ nl ++
  "    " ++ nl ++
  "    Title: " ++ title ++ nl ++
  "    Abstract: " ++ abstract ++ nl ++
  "    " ++ nl ++
  "    Return your answer in JSON format." ++ nl ++
  "    ".

Definition ask_gpt (title abstract : string) : M value :=
  let prompt := prompt_of title abstract in
  result <- get_gpt_reply prompt ;;
  result <- lift (json_loads result) ;;
  ret result.

Definition post_message_to_slack (fields : value) (channel : string) : M Response :=
  let web_hook :=
    if String.eqb channel "bottest"
    then Some "https://hooks.slack.com/services/<your-url>"
    else if String.eqb channel "journal_hub"
    then Some "https://hooks.slack.com/services/<your-url>"
    else if String.eqb channel "theory"
    then Some "https://hooks.slack.com/services/<your-url>"
    else None in
  match web_hook with
  | None => raise (UnboundLocalError "web_hook")
  | Some web_hook =>
      resp <- requests_post_for channel web_hook (json_dumps E fields) ;;
      ret resp
  end.

(** A ["type": "mrkdwn"] text object. *)
Definition mrkdwn (s : string) : value :=
  VDict [("type", VStr "mrkdwn"); ("text", VStr s)].

(** The dict display is evaluated left to right, so the keys are read in
    the order title, Type, Platform, Topic, url, Summary. *)
Definition generate_slack_message_block (paper : value) : exn + value :=
  match getitem_str paper "title" with inl e => inl e | inr p_title =>
  match getitem_str paper "Type" with inl e => inl e | inr p_Type =>
  match getitem_str paper "Platform" with inl e => inl e | inr p_Platform =>
  match getitem_str paper "Topic" with inl e => inl e | inr p_Topic =>
  match getitem_str paper "url" with inl e => inl e | inr p_url =>
  match getitem_str paper "Summary" with inl e => inl e | inr p_Summary =>
  inr (VDict
    [("blocks", VList
      [ VDict [("type", VStr "header");
               ("text", VDict [("type", VStr "plain_text");
                               ("text", p_title);
                               ("emoji", VBool true)])];
        VDict [("type", VStr "section");
               ("fields", VList
                 [ mrkdwn ("*Type:*" ++ nl ++ py_str p_Type);
                   mrkdwn ("*Platform:*" ++ nl ++ py_str p_Platform) ])];
        VDict [("type", VStr "section");
               ("fields", VList
                 [ mrkdwn ("*Topic:*" ++ nl ++ py_str p_Topic);
                   mrkdwn ("*URL:*" ++ nl ++ py_str p_url) ])];
        VDict [("type", VStr "section");
               ("text", mrkdwn (py_str p_Summary))] ])])
  end end end end end end.

(** [annotation.update({...})]: only a dict has the method. *)
Definition py_update (obj : value) (other : list (string * value)) : exn + value :=
  match obj with
  | VDict d => inr (VDict (dict_update d other))
  | _ => inl AttributeError
  end.

(** The routing statement of the loop body (under the comment "Handle your
    papers here"): the annotation is formatted and posted, or passed
    over.  The response of the POST is dropped. *)
Definition handle_paper (annotation : value) : M unit :=
  Platform <- lift (getitem_str annotation "Platform") ;;
  if py_eq_str Platform "Superconducting circuits"
  then
    blocks <- lift (generate_slack_message_block annotation) ;;
    post_message_to_slack blocks "journal_hub" ;;
    ret tt
  else
    Type_ <- lift (getitem_str annotation "Type") ;;
    if py_eq_str Type_ "Experiment"
    then ret tt
    else
      blocks <- lift (generate_slack_message_block annotation) ;;
      post_message_to_slack blocks "theory" ;;
      ret tt.

(** What [annotation.update] adds for a paper. *)
Definition paper_fields (paper : arxiv_Result) : list (string * value) :=
  [ ("title", VStr (title paper));
    ("authors", VStr (String.concat ", " (map name (authors paper))));
    ("abstract", VStr (summary paper));
    ("url", VStr (entry_id paper)) ].

(** One turn of the [for] loop of [run]; [papers_with_annotation] enters and
    leaves as the list built so far. *)
Definition run_paper (paper : arxiv_Result) (papers_with_annotation : list value)
  : M (list value) :=
  annotation <- ask_gpt (title paper) (summary paper) ;;
  annotation <- lift (py_update annotation (paper_fields paper)) ;;
  let papers_with_annotation := (papers_with_annotation ++ [annotation])%list in
  handle_paper annotation ;;
  ret papers_with_annotation.

Fixpoint run_loop (latest_papers : list arxiv_Result) (papers_with_annotation : list value)
  : M (list value) :=
  match latest_papers with
  | [] => ret papers_with_annotation
  | paper :: rest =>
      papers_with_annotation <- run_paper paper papers_with_annotation ;;
      run_loop rest papers_with_annotation
  end.

Definition run : M unit :=
  latest_papers <- obtain_latest_papers "quant-ph" 100 ;;
  let papers_with_annotation := [] in
  run_loop latest_papers papers_with_annotation ;;
  ret tt.

(** [try: run() / except Exception as e: ...]; every [exn] derives from
    [Exception]. *)
Definition lambda_handler (event context : value) : World -> value * World :=
  fun w =>
    match run w with
    | (inl e, w') => (VDict [("status", VBool false); ("error", VStr (exn_str E e))], w')
    | (inr _, w') => (VDict [("status", VStr "True")], w')
    end.

End Pipeline.

(** ** A scripted host for concrete runs *)

Module Script.

Definition dq : string := String (ascii_of_nat 34) EmptyString.

(** A JSON string literal, for text without quotes or backslashes. *)
Definition jstr (s : string) : string := dq ++ s ++ dq.

Definition jfield (s : option string) : string :=
  match s with Some s => jstr s | None => "null" end.

(** The reply text [{"Type": .., "Platform": .., "Topic": .., "Summary": ..}]. *)
Definition reply_text (ty platform topic summ : option string) : string :=
  "{" ++ jstr "Type" ++ ": " ++ jfield ty ++ ", "
      ++ jstr "Platform" ++ ": " ++ jfield platform ++ ", "
      ++ jstr "Topic" ++ ": " ++ jfield topic ++ ", "
      ++ jstr "Summary" ++ ": " ++ jfield summ ++ "}".

Definition vfield (s : option string) : value :=
  match s with Some s => VStr s | None => VNone end.

(** What [json.loads] makes of [reply_text]. *)
Definition reply_value (ty platform topic summ : option string) : value :=
  VDict [("Type", vfield ty); ("Platform", vfield platform);
         ("Topic", vfield topic); ("Summary", vfield summ)].

(** The four answers of a reply: Type, Platform, Topic, Summary. *)
Definition answers : Type :=
  (option string * option string * option string * option string)%type.

Definition sc_reply : answers :=
  (Some "Experiment", Some "Superconducting circuits", None, Some "One.").
Definition ion_reply : answers :=
  (Some "Experiment", Some "Ion trap", None, Some "Two.").
Definition theory_reply : answers :=
  (Some "Theory", None, Some "Error-correction", Some "Three.").
Definition null_reply : answers := (None, None, None, None).

Definition text_of (r : answers) : string :=
  let '(ty, platform, topic, summ) := r in reply_text ty platform topic summ.

Definition value_of (r : answers) : value :=
  let '(ty, platform, topic, summ) := r in reply_value ty platform topic summ.

(** The scanner on the texts the scripts use: four full replies, the empty
    object, an object with the key Platform only, and prose. *)
Definition decode (doc : string) : (string * Z) + value :=
  if String.eqb doc (text_of sc_reply) then inr (value_of sc_reply)
  else if String.eqb doc (text_of ion_reply) then inr (value_of ion_reply)
  else if String.eqb doc (text_of theory_reply) then inr (value_of theory_reply)
  else if String.eqb doc (text_of null_reply) then inr (value_of null_reply)
  else if String.eqb doc "{}" then inr (VDict [])
  else if String.eqb doc ("{" ++ jstr "Platform" ++ ": " ++ jstr "Superconducting circuits" ++ "}")
  then inr (VDict [("Platform", VStr "Superconducting circuits")])
  else inl ("Expecting value", 0).

(** The chat response object around a reply text. *)
Definition chat_response (content : string) : value :=
  VDict [("choices",
          VList [VDict [("index", VInt 0);
                        ("message", VDict [("role", VStr "assistant");
                                           ("content", VStr content)])]])].

Definition is_completion (ev : event) : bool :=
  match ev with ChatCompletion _ => true | _ => false end.

(** [str(e)] for the two exceptions the scripts meet at the entry point. *)
Definition show_exn (e : exn) : string :=
  match e with
  | JSONDecodeError msg _ 0 => msg ++ ": line 1 column 1 (char 0)"
  | KeyError (VStr k) => "'" ++ k ++ "'"
  | _ => exn_class e
  end.

(** A stand-in for [json.dumps] that names the message by its header. *)
Definition dumps (v : value) : string :=
  match getitem_str v "blocks" with
  | inr (VList (VDict [_; ("text", VDict [_; ("text", VStr t); _])] :: _)) =>
      "<message " ++ t ++ ">"
  | _ => "<json>"
  end.

(** A host whose feed is [feed], whose model answers its n-th request with
    the n-th text of [replies], and whose Slack hook answers every POST with
    HTTP status [status]. *)
Definition host (today : date) (feed : list arxiv_Result) (replies : list string)
    (status : Z) : Env :=
  {| date_today := today;
     arxiv_results := fun _ _ _ _ => inr feed;
     openai_create := fun w _ =>
       match nth_error replies (length (filter is_completion w)) with
       | Some content => inr (chat_response content)
       | None => inl (LibraryError "RateLimitError" "quota")
       end;
     requests_post := fun _ _ _ => inr {| status_code := status; text := "" |};
     json_decode := decode;
     json_dumps := dumps;
     py_repr := fun _ => "<repr>";
     exn_str := show_exn |}.

Definition at_time (y m d hh mm ss : Z) : datetime :=
  {| dt_year := y; dt_month := m; dt_day := d;
     dt_hour := hh; dt_minute := mm; dt_second := ss; dt_microsecond := 0 |}.

Definition paper_of (id ttl : string) (pub : datetime) : arxiv_Result :=
  {| entry_id := id; title := ttl; summary := "Abstract of " ++ ttl;
     authors := [ {| name := "A. Author" |}; {| name := "B. Author" |} ];
     published := pub |}.

Definition p1 := paper_of "http://arxiv.org/abs/2401.00001v1" "First" (at_time 2024 1 15 23 59 59).
Definition p2 := paper_of "http://arxiv.org/abs/2401.00002v1" "Second" (at_time 2024 1 15 12 0 0).
Definition p3 := paper_of "http://arxiv.org/abs/2401.00003v1" "Third" (at_time 2024 1 15 0 0 0).
Definition q1 := paper_of "http://arxiv.org/abs/2401.00004v1" "Older" (at_time 2024 1 14 23 59 59).
Definition q2 := paper_of "http://arxiv.org/abs/2401.00005v1" "Oldest" (at_time 2024 1 14 8 30 0).

Definition jan16 : date := {| year := 2024; month := 1; day := 16 |}.
Definition jan15 : date := {| year := 2024; month := 1; day := 15 |}.

End Script.

(** ** Vocabulary of the statements *)

(** The hook the source gives for each of its three channels. *)
Definition slack_hook : string := "https://hooks.slack.com/services/<your-url>".

(** The request [get_gpt_reply] sends for a message. *)
Definition chat_request (message : string) : ChatRequest :=
  {| model := "gpt-3.5-turbo";
     max_tokens := 1000;
     temperature := 0;
     messages := VList [VDict [("role", VStr "user"); ("content", VStr message)]] |}.

(** The request made for a paper. *)
Definition request_for (paper : arxiv_Result) : event :=
  ChatCompletion (chat_request (prompt_of (title paper) (summary paper))).

Inductive RoutingDecision : Type :=
| Destination (channel : string)
| Suppress.

(** The branch that the [if]/[elif]/[else] of [run] selects, read off its
    two conditions. *)
Definition route (annotation : value) : exn + RoutingDecision :=
  match getitem_str annotation "Platform" with
  | inl e => inl e
  | inr Platform =>
      if py_eq_str Platform "Superconducting circuits"
      then inr (Destination "journal_hub")
      else
        match getitem_str annotation "Type" with
        | inl e => inl e
        | inr Type_ =>
            if py_eq_str Type_ "Experiment"
            then inr Suppress
            else inr (Destination "theory")
        end
  end.

(** What a branch does once selected. *)
Definition carry_out (E : Env) (annotation : value) (d : RoutingDecision) : M unit :=
  match d with
  | Suppress => ret tt
  | Destination channel =>
      blocks <- lift (generate_slack_message_block E annotation) ;;
      post_message_to_slack E blocks channel ;;
      ret tt
  end.

(** The same host with another Slack endpoint behind [requests.post]. *)
Definition with_post (E : Env) (post : World -> string -> string -> exn + Response) : Env :=
  {| date_today := date_today E;
     arxiv_results := arxiv_results E;
     openai_create := openai_create E;
     requests_post := post;
     json_decode := json_decode E;
     json_dumps := json_dumps E;
     py_repr := py_repr E;
     exn_str := exn_str E |}.

(** An endpoint that answers every POST, with whatever status. *)
Definition always_answers (post : World -> string -> string -> exn + Response) : Prop :=
  forall w web_hook data, exists resp, post w web_hook data = inr resp.

(** The day a paper was published. *)
Definition published_on (paper : arxiv_Result) (d : date) : bool :=
  date_eqb (datetime_date (published paper)) d.

(** The six keys [generate_slack_message_block] reads, in the order it
    reads them. *)
Definition block_keys : list string :=
  ["title"; "Type"; "Platform"; "Topic"; "url"; "Summary"].

(** The first of [keys] that a dict does not hold. *)
Fixpoint first_missing (keys : list string) (d : list (string * value)) : option string :=
  match keys with
  | [] => None
  | k :: rest =>
      match dict_get k d with
      | None => Some k
      | Some _ => first_missing rest d
      end
  end.

Definition is_completion (ev : event) : bool :=
  match ev with ChatCompletion _ => true | _ => false end.

Definition is_post (ev : event) : bool :=
  match ev with HttpPost _ _ _ => true | _ => false end.

(** What the loop of [run] may send: a request to the model, or a POST for
    'journal_hub' or 'theory' to the hook of the source. *)
Definition loop_event (ev : event) : Prop :=
  match ev with
  | ArxivSearch _ _ _ => False
  | ChatCompletion _ => True
  | HttpPost channel web_hook _ =>
      (channel = "journal_hub" \/ channel = "theory") /\ web_hook = slack_hook
  end.

(** A scripted host whose feed provider raises [e]. *)
Definition host_without_feed (e : exn) : Env :=
  {| date_today := Script.jan16;
     arxiv_results := fun _ _ _ _ => inl e;
     openai_create := fun _ _ => inl (LibraryError "RateLimitError" "quota");
     requests_post := fun _ _ _ => inl (LibraryError "ConnectionError" "down");
     json_decode := Script.decode;
     json_dumps := Script.dumps;
     py_repr := fun _ => "<repr>";
     exn_str := fun ex => match ex with LibraryError _ m => m | _ => exn_class ex end |}.

(** A scripted host for the single paper [Script.p1] whose model answers
    every request with the response object [response]. *)
Definition host_answering (response : value) : Env :=
  {| date_today := Script.jan16;
     arxiv_results := fun _ _ _ _ => inr [Script.p1];
     openai_create := fun _ _ => inr response;
     requests_post := fun _ _ _ => inr {| status_code := 200; text := "" |};
     json_decode := Script.decode;
     json_dumps := Script.dumps;
     py_repr := fun _ => "<repr>";
     exn_str := Script.show_exn |}.

(** A scripted host for [Script.p1] whose model replies with the JSON text
    [null], which [json.loads] turns into [None]. *)
Definition host_replying_null : Env :=
  {| date_today := Script.jan16;
     arxiv_results := fun _ _ _ _ => inr [Script.p1];
     openai_create := fun _ _ => inr (Script.chat_response "null");
     requests_post := fun _ _ _ => inr {| status_code := 200; text := "" |};
     json_decode := fun doc =>
       if String.eqb doc "null" then inr VNone else Script.decode doc;
     json_dumps := Script.dumps;
     py_repr := fun _ => "<repr>";
     exn_str := Script.show_exn |}.

(** The calendar, said directly: the length of a month, what a date is,
    and the day before a date. *)
Definition days_in_month (y m : Z) : Z :=
  if (m =? 2) && is_leap y then 29 else nth (Z.to_nat m) DAYS_IN_MONTH 0.

Definition valid_date (d : date) : Prop :=
  1 <= year d <= 9999 /\ 1 <= month d <= 12
  /\ 1 <= day d <= days_in_month (year d) (month d).

Definition day_before (d : date) : date :=
  if 1 <? day d
  then {| year := year d; month := month d; day := day d - 1 |}
  else if 1 <? month d
  then {| year := year d; month := month d - 1;
          day := days_in_month (year d) (month d - 1) |}
  else {| year := year d - 1; month := 12; day := 31 |}.

(** The same day [k] cycles of 400 years later. *)
Definition cycles_later (k : Z) (d : date) : date :=
  {| year := year d + 400 * k; month := month d; day := day d |}.

(** [f] holds at [z], [z+1], ..., for [n] numbers. *)
Fixpoint all_from (f : Z -> bool) (n : nat) (z : Z) : bool :=
  match n with
  | O => true
  | S n' => f z && all_from f n' (z + 1)
  end.

(** The five numbers [fromordinal] takes from a day count: the 400-year
    cycles, centuries, 4-year cycles and years that went by, and the days
    left over. *)
Definition year_chain (n0 : Z) : Z * Z * Z * Z * Z :=
  (n0 / 146097,
   n0 mod 146097 / 36524,
   n0 mod 146097 mod 36524 / 1461,
   n0 mod 146097 mod 36524 mod 1461 / 365,
   n0 mod 146097 mod 36524 mod 1461 mod 365).

(** The month and the day of the [n]-th day of a year, counted from 0. *)
Definition month_day (leapyear : bool) (n : Z) : Z * Z :=
  let m := Z.shiftr (n + 50) 5 in
  let preceding :=
    nth (Z.to_nat m) DAYS_BEFORE_MONTH 0
    + (if (2 <? m) && leapyear then 1 else 0) in
  if n <? preceding
  then
    let m' := m - 1 in
    let preceding' :=
      preceding
      - (nth (Z.to_nat m') DAYS_IN_MONTH 0
         + (if (m' =? 2) && leapyear then 1 else 0)) in
    (m', n - preceding' + 1)
  else (m, n - preceding + 1).

(** The days of a year before a month, and the length of a month, for a
    year that is a leap year or is not. *)
Definition days_before_month_of (leap : bool) (m : Z) : Z :=
  nth (Z.to_nat m) DAYS_BEFORE_MONTH 0 + (if (2 <? m) && leap then 1 else 0).

Definition days_in_month_of (leap : bool) (m : Z) : Z :=
  if (m =? 2) && leap then 29 else nth (Z.to_nat m) DAYS_IN_MONTH 0.

(** What is checked of a year [y] of the first cycle, at its first day and
    at its 365th: the first four numbers of the chain are the same on both
    days and give the year; no days are left over on the first day; the
    year is a leap year when [fromordinal] says so; the next year starts a
    year's length later; the 366th day of a leap year is the 31st of
    December; and the year lies within the cycle. *)
Definition year_ok (y : Z) : bool :=
  let s := days_before_year y in
  let leap := is_leap y in
  let '(q400, q100, q4, q1, ds) := year_chain s in
  let '(p400, p100, p4, p1, _) := year_chain (s + 364) in
  (q400 =? p400) && (q100 =? p100) && (q4 =? p4) && (q1 =? p1) && (ds =? 0)
  && (q400 * 400 + 1 + q100 * 100 + q4 * 4 + q1 =? y)
  && negb ((q1 =? 4) || (q100 =? 4))
  && Bool.eqb ((q1 =? 3) && (negb (q4 =? 24) || (q100 =? 3))) leap
  && (days_before_year (y + 1) =? s + (if leap then 366 else 365))
  && (if leap
      then date_eqb (fromordinal (s + 366)) {| year := y; month := 12; day := 31 |}
      else true)
  && ((y =? 1) || (1 <=? s))
  && (s + (if leap then 366 else 365) <=? (if y =? 400 then 146097 else 145731)).

(** What is checked of a month: it starts where the month before it ends,
    and it has a day. *)
Definition month_ok (leap : bool) (m : Z) : bool :=
  (0 <=? days_before_month_of leap m)
  && (1 <=? days_in_month_of leap m)
  && implb (2 <=? m)
       (days_before_month_of leap m
        =? days_before_month_of leap (m - 1) + days_in_month_of leap (m - 1)).

(** What is checked of a day of a month: [month_day] finds the month and
    the day from the day of the year, which lies within the year. *)
Definition day_ok (leap : bool) (m d : Z) : bool :=
  implb (d <=? days_in_month_of leap m)
    (let n := days_before_month_of leap m + d - 1 in
     let '(mm, dd) := month_day leap n in
     (mm =? m) && (dd =? d) && (n <=? (if leap then 365 else 364))).

Definition months_ok (leap : bool) : bool :=
  all_from (fun m => month_ok leap m && all_from (fun d => day_ok leap m d) 31 1) 12 1.

(** * Properties *)

(** ** Dates and the feed selector *)

Lemma date_eqb_eq (a b : date) : date_eqb a b = true <-> a = b.
Proof.
  destruct a as [ya ma da], b as [yb mb db]; unfold date_eqb; simpl.
  rewrite !andb_true_iff, !Z.eqb_eq. split.
  - intros [[-> ->] ->]; reflexivity.
  - intros H; injection H; auto.
Qed.

Lemma published_on_iff (paper : arxiv_Result) (d : date) :
  published_on paper d = true <-> datetime_date (published paper) = d.
Proof. apply date_eqb_eq. Qed.

(** The accumulating loop is a filter behind what was already kept. *)
Lemma same_day_loop_filter (d : date) (results acc : list arxiv_Result) :
  same_day_loop d results acc
  = (acc ++ filter (fun paper => published_on paper d) results)%list.
Proof.
  revert acc; induction results as [|paper rest IH]; intros acc; simpl.
  - now rewrite app_nil_r.
  - unfold published_on at 1.
    destruct (date_eqb (datetime_date (published paper)) d).
    + rewrite IH, <- app_assoc; reflexivity.
    + apply IH.
Qed.

Lemma filter_none {A} (f : A -> bool) (l : list A) :
  (forall x, In x l -> f x = false) -> filter f l = [].
Proof.
  induction l as [|x l IH]; simpl; intros H; [reflexivity|].
  rewrite (H x (or_introl eq_refl)). apply IH. intros y Hy. apply H. now right.
Qed.

Example yesterday_of_jan16 : date_sub_days Script.jan16 1 = inr Script.jan15.
Proof. reflexivity. Qed.

Example yesterday_of_march_first :
  date_sub_days {| year := 2024; month := 3; day := 1 |} 1
  = inr {| year := 2024; month := 2; day := 29 |}.
Proof. reflexivity. Qed.

Example yesterday_of_new_year :
  date_sub_days {| year := 2024; month := 1; day := 1 |} 1
  = inr {| year := 2023; month := 12; day := 31 |}.
Proof. reflexivity. Qed.

Example no_day_before_the_first :
  date_sub_days {| year := 1; month := 1; day := 1 |} 1 = inl OverflowError.
Proof. reflexivity. Qed.

Section Properties.

Variable E : Env.

(** C4.  When the feed provider returns a sequence of items and yesterday's
    date is [target], [obtain_latest_papers] returns exactly the items of
    that sequence published on the calendar day [target], in their order:
    an item is in the output if and only if it was returned and its day is
    [target], and when no returned item matches the output is the empty
    list, returned normally. *)
Theorem obtain_latest_papers_same_day
    (category : string) (max_results : Z) (w : World)
    (results : list arxiv_Result) (target : date)
    (Hfeed : arxiv_results E w ("cat:" ++ category) max_results SubmittedDate = inr results)
    (Hday : date_sub_days (date_today E) 1 = inr target) :
  let out := filter (fun paper => published_on paper target) results in
  obtain_latest_papers E category max_results w
  = (inr out, (w ++ [ArxivSearch ("cat:" ++ category) max_results SubmittedDate])%list)
  /\ (forall paper, In paper out
                    <-> In paper results /\ datetime_date (published paper) = target)
  /\ ((forall paper, In paper results -> datetime_date (published paper) <> target)
      -> out = []).
Proof.
  intros out. split; [|split].
  - unfold obtain_latest_papers, bind, Search_results, lift, ret.
    rewrite Hfeed, Hday. now rewrite same_day_loop_filter.
  - intros paper. unfold out. rewrite filter_In, published_on_iff. tauto.
  - intros Hnone. unfold out. apply filter_none.
    intros paper Hin. destruct (published_on paper target) eqn:Hp; [|reflexivity].
    apply published_on_iff in Hp. destruct (Hnone paper Hin Hp).
Qed.

(** ** The extractor's request *)

Lemma get_gpt_reply_trace (message : string) (w : World) :
  snd (get_gpt_reply E message w) = (w ++ [ChatCompletion (chat_request message)])%list.
Proof.
  unfold get_gpt_reply, bind, ChatCompletion_create, lift, chat_request.
  destruct (openai_create E w _) as [e|response]; [reflexivity|].
  destruct (getitem_str response "choices") as [e|choices]; [reflexivity|].
  destruct (getitem_int choices 0) as [e|choice]; [reflexivity|].
  destruct (getitem_str choice "message") as [e|msg]; reflexivity.
Qed.

Lemma ask_gpt_trace (title abstract : string) (w : World) :
  snd (ask_gpt E title abstract w)
  = (w ++ [ChatCompletion (chat_request (prompt_of title abstract))])%list.
Proof.
  unfold ask_gpt, bind.
  pose proof (get_gpt_reply_trace (prompt_of title abstract) w) as H.
  destruct (get_gpt_reply E (prompt_of title abstract) w) as [[e|r] w']; simpl in H; subst w'.
  - reflexivity.
  - unfold lift, ret. destruct (json_loads E r); reflexivity.
Qed.

End Properties.

(** C8.  Each call of the extractor makes exactly one request to the
    completion provider; its sampling temperature is zero, and all its
    parameters are fixed by the prompt alone: for the same title and
    abstract the request is the same whatever the host and whatever
    happened before. *)
Theorem ask_gpt_request_deterministic
    (E1 E2 : Env) (title abstract : string) (w1 w2 : World) :
  let req := chat_request (prompt_of title abstract) in
  temperature req = 0
  /\ snd (ask_gpt E1 title abstract w1) = (w1 ++ [ChatCompletion req])%list
  /\ snd (ask_gpt E2 title abstract w2) = (w2 ++ [ChatCompletion req])%list
  /\ (forall message w,
        snd (get_gpt_reply E1 message w)
        = (w ++ [ChatCompletion (chat_request message)])%list
        /\ temperature (chat_request message) = 0).
Proof.
  intros req. repeat split.
  - apply ask_gpt_trace.
  - apply ask_gpt_trace.
  - apply get_gpt_reply_trace.
Qed.

(** ** Delivery *)

Lemma post_message_to_slack_unknown_channel_aux
    (E : Env) (fields : value) (channel : string) (w : World) :
  channel <> "bottest" -> channel <> "journal_hub" -> channel <> "theory" ->
  post_message_to_slack E fields channel w = (inl (UnboundLocalError "web_hook"), w).
Proof.
  intros Hb Hj Ht. unfold post_message_to_slack.
  apply String.eqb_neq in Hb, Hj, Ht. rewrite Hb, Hj, Ht. reflexivity.
Qed.

(** C9.  For a channel that is none of 'bottest', 'journal_hub' and
    'theory', [post_message_to_slack] raises UnboundLocalError for
    [web_hook] and makes no request: the trace is unchanged. *)
Theorem post_message_to_slack_unknown_channel
    (E : Env) (fields : value) (channel : string) (w : World)
    (Hb : channel <> "bottest") (Hj : channel <> "journal_hub") (Ht : channel <> "theory") :
  post_message_to_slack E fields channel w = (inl (UnboundLocalError "web_hook"), w).
Proof. now apply post_message_to_slack_unknown_channel_aux. Qed.

Lemma post_message_to_slack_unknown_channel_witness :
  post_message_to_slack (Script.host Script.jan16 [] [] 200) (VDict []) "general" []
  = (inl (UnboundLocalError "web_hook"), []).
Proof.
  apply post_message_to_slack_unknown_channel; discriminate.
Defined.

Lemma obtain_latest_papers_same_day_witness :
  obtain_latest_papers
    (Script.host Script.jan16
       [Script.p1; Script.q1; Script.p2; Script.q2; Script.p3] [] 200)
    "quant-ph" 100 []
  = (inr [Script.p1; Script.p2; Script.p3],
     [ArxivSearch "cat:quant-ph" 100 SubmittedDate]).
Proof.
  apply (obtain_latest_papers_same_day
           (Script.host Script.jan16
              [Script.p1; Script.q1; Script.p2; Script.q2; Script.p3] [] 200)
           "quant-ph" 100 []
           [Script.p1; Script.q1; Script.p2; Script.q2; Script.p3] Script.jan15);
    reflexivity.
Defined.

(** A POST can only come from one of the three channel names. *)
Lemma post_message_to_slack_posts_known
    (E : Env) (fields : value) (channel : string) (w : World) :
  snd (post_message_to_slack E fields channel w) <> w ->
  channel = "bottest" \/ channel = "journal_hub" \/ channel = "theory".
Proof.
  intros Hposted.
  destruct (String.eqb_spec channel "bottest") as [|Hb]; [now left|].
  destruct (String.eqb_spec channel "journal_hub") as [|Hj]; [now right; left|].
  destruct (String.eqb_spec channel "theory") as [|Ht]; [now right; right|].
  rewrite (post_message_to_slack_unknown_channel_aux E fields channel w Hb Hj Ht) in Hposted.
  now destruct Hposted.
Qed.

(** ** Dicts *)

Lemma dict_get_set_same (k : string) (v : value) (d : list (string * value)) :
  dict_get k (dict_set k v d) = Some v.
Proof.
  induction d as [|[k' v'] d IH]; simpl.
  - now rewrite String.eqb_refl.
  - destruct (String.eqb k k') eqn:Hk; simpl; rewrite Hk; [reflexivity|exact IH].
Qed.

Lemma dict_get_set_other (k k' : string) (v : value) (d : list (string * value)) :
  k <> k' -> dict_get k (dict_set k' v d) = dict_get k d.
Proof.
  intros Hne. induction d as [|[k0 v0] d IH]; simpl.
  - apply String.eqb_neq in Hne. now rewrite Hne.
  - destruct (String.eqb k' k0) eqn:Hk'; simpl.
    + apply String.eqb_eq in Hk'; subst k0.
      apply String.eqb_neq in Hne. now rewrite Hne.
    + now rewrite IH.
Qed.

(** [update] with the paper's fields leaves every other key as it was. *)
Lemma dict_get_update_other (paper : arxiv_Result) (k : string) (d : list (string * value)) :
  k <> "title" -> k <> "authors" -> k <> "abstract" -> k <> "url" ->
  dict_get k (dict_update d (paper_fields paper)) = dict_get k d.
Proof.
  intros H1 H2 H3 H4. unfold dict_update, paper_fields; simpl.
  now rewrite !dict_get_set_other.
Qed.

Lemma dict_get_update_title (paper : arxiv_Result) (d : list (string * value)) :
  dict_get "title" (dict_update d (paper_fields paper)) = Some (VStr (title paper)).
Proof.
  unfold dict_update, paper_fields; simpl.
  rewrite !dict_get_set_other by discriminate. apply dict_get_set_same.
Qed.

Lemma dict_get_update_url (paper : arxiv_Result) (d : list (string * value)) :
  dict_get "url" (dict_update d (paper_fields paper)) = Some (VStr (entry_id paper)).
Proof. unfold dict_update, paper_fields; simpl. apply dict_get_set_same. Qed.

Lemma py_eq_str_true (v : value) (lit : string) :
  py_eq_str v lit = true <-> v = VStr lit.
Proof.
  destruct v; simpl; try (split; [discriminate|discriminate]).
  rewrite String.eqb_eq. split; [now intros ->|now intros [= ->]].
Qed.

Lemma py_eq_str_false (v : value) (lit : string) :
  py_eq_str v lit = false <-> v <> VStr lit.
Proof.
  rewrite <- py_eq_str_true. destruct (py_eq_str v lit); split; congruence.
Qed.

(** ** The formatter *)

(** The four blocks for given field values. *)
Lemma generate_slack_message_block_present
    (E : Env) (d : list (string * value)) (v_title v_Type v_Platform v_Topic v_url v_Summary : value) :
  dict_get "title" d = Some v_title ->
  dict_get "Type" d = Some v_Type ->
  dict_get "Platform" d = Some v_Platform ->
  dict_get "Topic" d = Some v_Topic ->
  dict_get "url" d = Some v_url ->
  dict_get "Summary" d = Some v_Summary ->
  generate_slack_message_block E (VDict d)
  = inr (VDict
      [("blocks", VList
        [ VDict [("type", VStr "header");
                 ("text", VDict [("type", VStr "plain_text");
                                 ("text", v_title);
                                 ("emoji", VBool true)])];
          VDict [("type", VStr "section");
                 ("fields", VList
                   [ mrkdwn ("*Type:*" ++ nl ++ py_str E v_Type);
                     mrkdwn ("*Platform:*" ++ nl ++ py_str E v_Platform) ])];
          VDict [("type", VStr "section");
                 ("fields", VList
                   [ mrkdwn ("*Topic:*" ++ nl ++ py_str E v_Topic);
                     mrkdwn ("*URL:*" ++ nl ++ py_str E v_url) ])];
          VDict [("type", VStr "section");
                 ("text", mrkdwn (py_str E v_Summary))] ])]).
Proof.
  intros H1 H2 H3 H4 H5 H6. unfold generate_slack_message_block, getitem_str.
  now rewrite H1, H2, H3, H4, H5, H6.
Qed.

(** C6, as the code has it.  For every paper dict that holds the keys title,
    Type, Platform, Topic, url and Summary, whatever their values, the
    formatter raises nothing and returns the four blocks in order: the
    header with the title, the Type and Platform fields, the Topic and URL
    fields, the summary text.  A null value is rendered as the text
    'None'. *)
Theorem generate_slack_message_block_four_blocks
    (E : Env) (d : list (string * value))
    (v_title v_Type v_Platform v_Topic v_url v_Summary : value)
    (Htitle : dict_get "title" d = Some v_title)
    (HType : dict_get "Type" d = Some v_Type)
    (HPlatform : dict_get "Platform" d = Some v_Platform)
    (HTopic : dict_get "Topic" d = Some v_Topic)
    (Hurl : dict_get "url" d = Some v_url)
    (HSummary : dict_get "Summary" d = Some v_Summary) :
  generate_slack_message_block E (VDict d)
  = inr (VDict
      [("blocks", VList
        [ VDict [("type", VStr "header");
                 ("text", VDict [("type", VStr "plain_text");
                                 ("text", v_title);
                                 ("emoji", VBool true)])];
          VDict [("type", VStr "section");
                 ("fields", VList
                   [ mrkdwn ("*Type:*" ++ nl ++ py_str E v_Type);
                     mrkdwn ("*Platform:*" ++ nl ++ py_str E v_Platform) ])];
          VDict [("type", VStr "section");
                 ("fields", VList
                   [ mrkdwn ("*Topic:*" ++ nl ++ py_str E v_Topic);
                     mrkdwn ("*URL:*" ++ nl ++ py_str E v_url) ])];
          VDict [("type", VStr "section");
                 ("text", mrkdwn (py_str E v_Summary))] ])])
  /\ py_str E VNone = "None".
Proof.
  split; [|reflexivity].
  now apply generate_slack_message_block_present.
Qed.

(** An annotation with all four answers null, for a paper with a title and
    a URL. *)
Lemma generate_slack_message_block_four_blocks_witness :
  generate_slack_message_block (Script.host Script.jan16 [] [] 200)
    (VDict [("Type", VNone); ("Platform", VNone); ("Topic", VNone); ("Summary", VNone);
            ("title", VStr "First"); ("url", VStr "u")])
  = inr (VDict
      [("blocks", VList
        [ VDict [("type", VStr "header");
                 ("text", VDict [("type", VStr "plain_text");
                                 ("text", VStr "First");
                                 ("emoji", VBool true)])];
          VDict [("type", VStr "section");
                 ("fields", VList
                   [ mrkdwn ("*Type:*" ++ nl ++ "None");
                     mrkdwn ("*Platform:*" ++ nl ++ "None") ])];
          VDict [("type", VStr "section");
                 ("fields", VList
                   [ mrkdwn ("*Topic:*" ++ nl ++ "None");
                     mrkdwn ("*URL:*" ++ nl ++ "u") ])];
          VDict [("type", VStr "section");
                 ("text", mrkdwn "None")] ])]).
Proof.
  apply (generate_slack_message_block_four_blocks
           (Script.host Script.jan16 [] [] 200)
           [("Type", VNone); ("Platform", VNone); ("Topic", VNone); ("Summary", VNone);
            ("title", VStr "First"); ("url", VStr "u")]
           (VStr "First") VNone VNone VNone (VStr "u") VNone); reflexivity.
Defined.

(** C6, as stated, fails: a dict without the key Type makes the formatter
    raise KeyError. *)
Lemma generate_slack_message_block_missing_key :
  generate_slack_message_block (Script.host Script.jan16 [] [] 200)
    (VDict [("Platform", VStr "Superconducting circuits");
            ("title", VStr "First"); ("url", VStr "u")])
  = inl (KeyError (VStr "Type")).
Proof. reflexivity. Qed.

(** ** Routing *)

Lemma post_message_to_slack_journal_hub (E : Env) (fields : value) (w : World) :
  post_message_to_slack E fields "journal_hub" w
  = (requests_post E w slack_hook (json_dumps E fields),
     (w ++ [HttpPost "journal_hub" slack_hook (json_dumps E fields)])%list).
Proof.
  unfold post_message_to_slack; simpl. unfold bind, requests_post_for, ret, slack_hook.
  destruct (requests_post E w _ _); reflexivity.
Qed.

Lemma post_message_to_slack_theory (E : Env) (fields : value) (w : World) :
  post_message_to_slack E fields "theory" w
  = (requests_post E w slack_hook (json_dumps E fields),
     (w ++ [HttpPost "theory" slack_hook (json_dumps E fields)])%list).
Proof.
  unfold post_message_to_slack; simpl. unfold bind, requests_post_for, ret, slack_hook.
  destruct (requests_post E w _ _); reflexivity.
Qed.

(** The loop body selects a branch by [route] and carries it out. *)
Lemma handle_paper_route (E : Env) (annotation : value) (w : World) :
  handle_paper E annotation w
  = match route annotation with
    | inl e => (inl e, w)
    | inr d => carry_out E annotation d w
    end.
Proof.
  unfold handle_paper, route, bind, lift.
  destruct (getitem_str annotation "Platform") as [e|p]; [reflexivity|].
  destruct (py_eq_str p "Superconducting circuits"); [reflexivity|].
  destruct (getitem_str annotation "Type") as [e|t]; [reflexivity|].
  destruct (py_eq_str t "Experiment"); reflexivity.
Qed.

(** Formatting and posting to one of the two channels of [run]: the
    request is made whatever the endpoint then does. *)
Lemma carry_out_destination_trace
    (E : Env) (annotation blocks : value) (channel : string) (w : World) :
  channel = "journal_hub" \/ channel = "theory" ->
  generate_slack_message_block E annotation = inr blocks ->
  snd (carry_out E annotation (Destination channel) w)
  = (w ++ [HttpPost channel slack_hook (json_dumps E blocks)])%list.
Proof.
  intros Hch Hblocks. unfold carry_out, bind, lift. rewrite Hblocks.
  destruct Hch as [-> | ->].
  - rewrite post_message_to_slack_journal_hub.
    destruct (requests_post E w _ _); reflexivity.
  - rewrite post_message_to_slack_theory.
    destruct (requests_post E w _ _); reflexivity.
Qed.

(** One turn of the loop after a successful extraction. *)
Lemma run_paper_after_ask
    (E : Env) (paper : arxiv_Result) (acc : list value) (w w1 : World)
    (d : list (string * value)) :
  ask_gpt E (title paper) (summary paper) w = (inr (VDict d), w1) ->
  let annotation := VDict (dict_update d (paper_fields paper)) in
  run_paper E paper acc w
  = match handle_paper E annotation w1 with
    | (inl e, w2) => (inl e, w2)
    | (inr _, w2) => (inr (acc ++ [annotation])%list, w2)
    end.
Proof.
  intros Hask annotation. unfold run_paper, bind, lift, py_update. rewrite Hask.
  cbv beta iota. fold annotation.
  destruct (handle_paper E annotation w1) as [[e|u] w2]; reflexivity.
Qed.

(** C1, as the code has it.  When the extractor returns an annotation that
    is a JSON object with the four answers Type, Platform, Topic and
    Summary (null allowed), the turn of the loop follows the three rules in
    order.  Rule 1: Platform equal to 'Superconducting
    circuits' posts the paper's message for channel 'journal_hub', whatever
    Type is (also 'Experiment').  Rule 2: otherwise Type equal to
    'Experiment' posts nothing and the turn ends normally.  Rule 3:
    otherwise the message is posted for channel 'theory'. *)
Theorem run_paper_routing
    (E : Env) (paper : arxiv_Result) (acc : list value) (w w1 : World)
    (d : list (string * value)) (v_Type v_Platform v_Topic v_Summary : value)
    (Hask : ask_gpt E (title paper) (summary paper) w = (inr (VDict d), w1))
    (HType : dict_get "Type" d = Some v_Type)
    (HPlatform : dict_get "Platform" d = Some v_Platform)
    (HTopic : dict_get "Topic" d = Some v_Topic)
    (HSummary : dict_get "Summary" d = Some v_Summary) :
  exists blocks,
    generate_slack_message_block E (VDict (dict_update d (paper_fields paper))) = inr blocks
    /\ (v_Platform = VStr "Superconducting circuits" ->
        snd (run_paper E paper acc w)
        = (w1 ++ [HttpPost "journal_hub" slack_hook (json_dumps E blocks)])%list)
    /\ (v_Platform <> VStr "Superconducting circuits" ->
        v_Type = VStr "Experiment" ->
        run_paper E paper acc w
        = (inr (acc ++ [VDict (dict_update d (paper_fields paper))])%list, w1))
    /\ (v_Platform <> VStr "Superconducting circuits" ->
        v_Type <> VStr "Experiment" ->
        snd (run_paper E paper acc w)
        = (w1 ++ [HttpPost "theory" slack_hook (json_dumps E blocks)])%list).
Proof.
  set (annotation := VDict (dict_update d (paper_fields paper))).
  assert (HP : getitem_str annotation "Platform" = inr v_Platform).
  { unfold annotation, getitem_str.
    rewrite dict_get_update_other by discriminate. now rewrite HPlatform. }
  assert (HT : getitem_str annotation "Type" = inr v_Type).
  { unfold annotation, getitem_str.
    rewrite dict_get_update_other by discriminate. now rewrite HType. }
  destruct (generate_slack_message_block E annotation) as [e|blocks] eqn:Hblocks.
  { unfold annotation in Hblocks.
    rewrite (generate_slack_message_block_present E _
               (VStr (title paper)) v_Type v_Platform v_Topic
               (VStr (entry_id paper)) v_Summary) in Hblocks;
      [discriminate | apply dict_get_update_title | | | | apply dict_get_update_url | ];
      rewrite dict_get_update_other by discriminate; assumption. }
  exists blocks. split; [reflexivity|].
  pose proof (run_paper_after_ask E paper acc w w1 d Hask) as Hrun.
  cbv zeta in Hrun. fold annotation in Hrun.
  rewrite handle_paper_route in Hrun. unfold route in Hrun. rewrite HP in Hrun.
  split; [|split].
  - intros Hsc. apply py_eq_str_true in Hsc. rewrite Hsc in Hrun.
    pose proof (carry_out_destination_trace E annotation blocks "journal_hub" w1
                  (or_introl eq_refl) Hblocks) as Htrace.
    rewrite Hrun.
    destruct (carry_out E annotation (Destination "journal_hub") w1) as [[e|u] w2];
      simpl in *; exact Htrace.
  - intros Hsc Hexp. apply py_eq_str_false in Hsc. apply py_eq_str_true in Hexp.
    rewrite Hsc, HT, Hexp in Hrun. exact Hrun.
  - intros Hsc Hexp. apply py_eq_str_false in Hsc. apply py_eq_str_false in Hexp.
    rewrite Hsc, HT, Hexp in Hrun.
    pose proof (carry_out_destination_trace E annotation blocks "theory" w1
                  (or_intror eq_refl) Hblocks) as Htrace.
    rewrite Hrun.
    destruct (carry_out E annotation (Destination "theory") w1) as [[e|u] w2];
      simpl in *; exact Htrace.
Qed.

(** A superconducting experiment: Platform decides before Type is read. *)
Lemma run_paper_routing_witness :
  snd (run_paper (Script.host Script.jan16 [Script.p1] [Script.text_of Script.sc_reply] 200)
         Script.p1 [] [])
  = [request_for Script.p1; HttpPost "journal_hub" slack_hook "<message First>"].
Proof.
  destruct (run_paper_routing
              (Script.host Script.jan16 [Script.p1] [Script.text_of Script.sc_reply] 200)
              Script.p1 [] [] [request_for Script.p1]
              [("Type", VStr "Experiment"); ("Platform", VStr "Superconducting circuits");
               ("Topic", VNone); ("Summary", VStr "One.")]
              (VStr "Experiment") (VStr "Superconducting circuits") VNone (VStr "One.")
              eq_refl eq_refl eq_refl eq_refl eq_refl)
    as (blocks & Hblocks & Hrule1 & _).
  rewrite (Hrule1 eq_refl).
  vm_compute in Hblocks. injection Hblocks as <-. reflexivity.
Defined.

(** C1, as stated, fails for an annotation that lacks a key.  A reply
    with the key Platform only, equal to 'Superconducting circuits', is
    not delivered to 'journal_hub': the turn raises KeyError for 'Type'
    and the trace holds the request to the model alone.  An annotation
    whose Type is 'Experiment' and that has no key Platform is not
    passed over: the routing statement raises KeyError for 'Platform'. *)
Lemma routing_incomplete_annotation_raises :
  run_paper
    (Script.host Script.jan16 [Script.p1]
       ["{" ++ Script.jstr "Platform" ++ ": "
            ++ Script.jstr "Superconducting circuits" ++ "}"] 200)
    Script.p1 [] []
  = (inl (KeyError (VStr "Type")), [request_for Script.p1])
  /\ handle_paper (Script.host Script.jan16 [] [] 200)
       (VDict [("Type", VStr "Experiment"); ("Topic", VNone); ("Summary", VStr "Two.");
               ("title", VStr "Second"); ("url", VStr "u")]) []
     = (inl (KeyError (VStr "Platform")), []).
Proof. split; vm_compute; reflexivity. Qed.

(** C5, as the code has it.  For every annotation that holds the keys
    Platform and Type, whatever their values (null included), routing
    raises nothing and selects one of the three outcomes: journal_hub,
    Suppress or theory; the outcome is fixed by the annotation alone, and
    the loop body does what the outcome says. *)
Theorem route_total_when_present
    (E : Env) (d : list (string * value)) (v_Platform v_Type : value) (w : World)
    (HPlatform : dict_get "Platform" d = Some v_Platform)
    (HType : dict_get "Type" d = Some v_Type) :
  exists decision,
    route (VDict d) = inr decision
    /\ (decision = Destination "journal_hub"
        \/ decision = Suppress
        \/ decision = Destination "theory")
    /\ handle_paper E (VDict d) w = carry_out E (VDict d) decision w.
Proof.
  rewrite handle_paper_route. unfold route, getitem_str. rewrite HPlatform, HType.
  destruct (py_eq_str v_Platform "Superconducting circuits").
  - exists (Destination "journal_hub"). auto.
  - destruct (py_eq_str v_Type "Experiment").
    + exists Suppress. auto.
    + exists (Destination "theory"). auto.
Qed.

(** Null Platform and null Type: the paper goes to 'theory'. *)
Lemma route_total_when_present_witness :
  route (VDict [("Type", VNone); ("Platform", VNone)]) = inr (Destination "theory").
Proof.
  destruct (route_total_when_present
              (Script.host Script.jan16 [] [] 200)
              [("Type", VNone); ("Platform", VNone)] VNone VNone []
              eq_refl eq_refl) as (decision & Hroute & _ & _).
  vm_compute in Hroute. injection Hroute as <-. reflexivity.
Defined.

(** C5, as stated, fails: an annotation without the key Platform makes the
    routing statement raise KeyError; so does one without the key Type
    whose Platform is not 'Superconducting circuits'. *)
Lemma route_absent_key_raises :
  handle_paper (Script.host Script.jan16 [] [] 200)
    (VDict [("Type", VStr "Theory"); ("Topic", VNone); ("Summary", VStr "One.");
            ("title", VStr "First"); ("url", VStr "u")]) []
  = (inl (KeyError (VStr "Platform")), [])
  /\ handle_paper (Script.host Script.jan16 [] [] 200)
       (VDict [("Platform", VNone); ("Topic", VNone); ("Summary", VStr "One.");
               ("title", VStr "First"); ("url", VStr "u")]) []
     = (inl (KeyError (VStr "Type")), []).
Proof. split; reflexivity. Qed.

(** ** The extractor's result *)

(** C3, as the code has it.  For every response text of the model: when the
    text does not parse as JSON, [ask_gpt] raises the JSONDecodeError of
    [json.loads], which holds the raw text as its document; when the text
    parses, [ask_gpt] returns the parsed object as it is, whether or not it
    has the keys Type, Platform, Topic and Summary. *)
Theorem ask_gpt_outcome
    (E : Env) (title abstract : string) (w w1 : World) (text : string)
    (Hreply : get_gpt_reply E (prompt_of title abstract) w = (inr (VStr text), w1)) :
  (forall msg pos,
      json_decode E text = inl (msg, pos) ->
      ask_gpt E title abstract w = (inl (JSONDecodeError msg text pos), w1))
  /\ (forall v,
      json_decode E text = inr v ->
      ask_gpt E title abstract w = (inr v, w1)).
Proof.
  split.
  - intros msg pos Hdec. unfold ask_gpt, bind, lift, json_loads.
    rewrite Hreply, Hdec. reflexivity.
  - intros v Hdec. unfold ask_gpt, bind, lift, json_loads, ret.
    rewrite Hreply, Hdec. reflexivity.
Qed.

(** Prose instead of JSON. *)
Lemma ask_gpt_outcome_witness :
  ask_gpt (Script.host Script.jan16 [] ["not json"] 200) "First" "Abstract of First" []
  = (inl (JSONDecodeError "Expecting value" "not json" 0),
     [ChatCompletion (chat_request (prompt_of "First" "Abstract of First"))]).
Proof.
  apply (ask_gpt_outcome (Script.host Script.jan16 [] ["not json"] 200)
           "First" "Abstract of First" []
           [ChatCompletion (chat_request (prompt_of "First" "Abstract of First"))]
           "not json" eq_refl).
  reflexivity.
Defined.

(** C3, as stated, fails: on prose the error raised is of class
    JSONDecodeError, not ClassificationError, and on the empty JSON object,
    which has none of the four keys, nothing is raised. *)
Lemma ask_gpt_no_ClassificationError :
  (exists e w1,
      ask_gpt (Script.host Script.jan16 [] ["not json"] 200) "First" "Abstract of First" []
      = (inl e, w1)
      /\ exn_class e <> "ClassificationError")
  /\ fst (ask_gpt (Script.host Script.jan16 [] ["{}"] 200) "First" "Abstract of First" [])
     = inr (VDict []).
Proof.
  split.
  - eexists; eexists; split; [reflexivity|]. discriminate.
  - reflexivity.
Qed.

(** ** The batch and the entry point *)

Lemma run_loop_app (E : Env) (l1 l2 : list arxiv_Result) (acc : list value) (w : World) :
  run_loop E (l1 ++ l2) acc w
  = match run_loop E l1 acc w with
    | (inl e, w') => (inl e, w')
    | (inr acc', w') => run_loop E l2 acc' w'
    end.
Proof.
  revert acc w; induction l1 as [|paper l1 IH]; intros acc w; simpl.
  - reflexivity.
  - unfold bind. destruct (run_paper E paper acc w) as [[e|acc'] w']; [reflexivity|].
    apply IH.
Qed.

(** An exception in one turn ends the loop there. *)
Lemma run_loop_raises
    (E : Env) (pre post : list arxiv_Result) (paper : arxiv_Result)
    (acc0 acc : list value) (w0 w1 w2 : World) (e : exn) :
  run_loop E pre acc0 w0 = (inr acc, w1) ->
  run_paper E paper acc w1 = (inl e, w2) ->
  run_loop E (pre ++ paper :: post) acc0 w0 = (inl e, w2).
Proof.
  intros Hpre Hpaper. rewrite run_loop_app, Hpre. simpl. unfold bind.
  now rewrite Hpaper.
Qed.

Lemma lambda_handler_on_exception
    (E : Env) (event context : value) (w w' : World) (e : exn) :
  run E w = (inl e, w') ->
  lambda_handler E event context w
  = (VDict [("status", VBool false); ("error", VStr (exn_str E e))], w').
Proof. intros Hrun. unfold lambda_handler. now rewrite Hrun. Qed.

Lemma lambda_handler_on_return
    (E : Env) (event context : value) (w w' : World) (u : unit) :
  run E w = (inr u, w') ->
  lambda_handler E event context w = (VDict [("status", VStr "True")], w').
Proof. intros Hrun. unfold lambda_handler. now rewrite Hrun. Qed.

(** C2, as the code has it.  A failure raised while one paper is extracted
    or delivered is not caught in the loop: it ends the run at that paper.
    The papers before it have been handled, the papers after it are never
    looked at (the trace ends where the failing turn left it), and the
    entry point reports status False with the text of the exception. *)
Theorem failure_aborts_run
    (E : Env) (event context : value)
    (pre post : list arxiv_Result) (paper : arxiv_Result)
    (acc : list value) (w w0 w1 w2 : World) (e : exn)
    (Hfeed : obtain_latest_papers E "quant-ph" 100 w = (inr (pre ++ paper :: post)%list, w0))
    (Hpre : run_loop E pre [] w0 = (inr acc, w1))
    (Hpaper : run_paper E paper acc w1 = (inl e, w2)) :
  run E w = (inl e, w2)
  /\ lambda_handler E event context w
     = (VDict [("status", VBool false); ("error", VStr (exn_str E e))], w2).
Proof.
  assert (Hrun : run E w = (inl e, w2)).
  { unfold run, bind. rewrite Hfeed.
    now rewrite (run_loop_raises E pre post paper [] acc w0 w1 w2 e Hpre Hpaper). }
  split; [exact Hrun|]. now apply lambda_handler_on_exception.
Qed.

(** Three papers of the day, the model's second reply is prose. *)
Lemma failure_aborts_run_witness :
  lambda_handler
    (Script.host Script.jan16 [Script.p1; Script.p2; Script.p3]
       [Script.text_of Script.theory_reply; "not json"; Script.text_of Script.theory_reply]
       200)
    (VDict []) VNone []
  = (VDict [("status", VBool false);
            ("error", VStr "Expecting value: line 1 column 1 (char 0)")],
     [ArxivSearch "cat:quant-ph" 100 SubmittedDate;
      request_for Script.p1;
      HttpPost "theory" slack_hook "<message First>";
      request_for Script.p2]).
Proof.
  apply (failure_aborts_run
           (Script.host Script.jan16 [Script.p1; Script.p2; Script.p3]
              [Script.text_of Script.theory_reply; "not json";
               Script.text_of Script.theory_reply] 200)
           (VDict []) VNone [Script.p1] [Script.p3] Script.p2
           [VDict (dict_update
                     [("Type", VStr "Theory"); ("Platform", VNone);
                      ("Topic", VStr "Error-correction"); ("Summary", VStr "Three.")]
                     (paper_fields Script.p1))]
           []
           [ArxivSearch "cat:quant-ph" 100 SubmittedDate]
           [ArxivSearch "cat:quant-ph" 100 SubmittedDate;
            request_for Script.p1;
            HttpPost "theory" slack_hook "<message First>"]
           [ArxivSearch "cat:quant-ph" 100 SubmittedDate;
            request_for Script.p1;
            HttpPost "theory" slack_hook "<message First>";
            request_for Script.p2]
           (JSONDecodeError "Expecting value" "not json" 0));
    reflexivity.
Defined.

(** C2, as stated, fails: with three papers of the day and prose as the
    model's second reply, the entry point reports status False, and the
    third paper is never sent to the model: the trace ends with the request
    for the second. *)
Lemma second_paper_failure_aborts :
  let outcome :=
    lambda_handler
      (Script.host Script.jan16 [Script.p1; Script.p2; Script.p3]
         [Script.text_of Script.theory_reply; "not json";
          Script.text_of Script.theory_reply] 200)
      (VDict []) VNone [] in
  getitem_str (fst outcome) "status" = inr (VBool false)
  /\ last (snd outcome) (request_for Script.p1) = request_for Script.p2
  /\ ~ In (request_for Script.p3) (snd outcome).
Proof.
  repeat split.
  vm_compute. intros [H|[H|[H|[H|[]]]]]; discriminate H.
Qed.

(** C7.  The entry point on a run that raises nothing (here, an empty
    feed): the status field of the result is the text 'True', a [str], and
    not the boolean true that the sibling branch's boolean False calls
    for. *)
Theorem lambda_handler_status_is_text :
  let result :=
    fst (lambda_handler (Script.host Script.jan16 [] [] 200) (VDict []) VNone []) in
  result = VDict [("status", VStr "True")]
  /\ getitem_str result "status" = inr (VStr "True")
  /\ getitem_str result "status" <> inr (VBool true).
Proof. repeat split. discriminate. Qed.

(** ** The response of a delivery *)

(** Two computations that start alike and continue alike. *)
Lemma bind_ext {A B} (m : M A) (k1 k2 : A -> M B) (w : World) :
  (forall a w', k1 a w' = k2 a w') -> bind m k1 w = bind m k2 w.
Proof.
  intros Hk. unfold bind. destruct (m w) as [[e|a] w']; [reflexivity|apply Hk].
Qed.

(** With the response dropped, a POST to an endpoint that answers leaves
    the same behind whatever the answer is. *)
Lemma post_message_to_slack_with_post
    (E : Env) (post1 post2 : World -> string -> string -> exn + Response)
    (fields : value) (channel : string) (w : World) :
  always_answers post1 -> always_answers post2 ->
  (post_message_to_slack (with_post E post1) fields channel ;; ret tt) w
  = (post_message_to_slack (with_post E post2) fields channel ;; ret tt) w.
Proof.
  intros H1 H2.
  destruct (H1 w slack_hook (json_dumps E fields)) as [r1 Hr1].
  destruct (H2 w slack_hook (json_dumps E fields)) as [r2 Hr2].
  unfold post_message_to_slack.
  destruct (String.eqb channel "bottest");
    [|destruct (String.eqb channel "journal_hub");
      [|destruct (String.eqb channel "theory"); [|reflexivity]]].
  all: unfold bind, requests_post_for, ret;
    cbn [with_post requests_post json_dumps];
    fold slack_hook; rewrite Hr1, Hr2; reflexivity.
Qed.

(** What [carry_out] leaves behind does not depend on the answers. *)
Lemma carry_out_with_post
    (E : Env) (post1 post2 : World -> string -> string -> exn + Response)
    (annotation : value) (decision : RoutingDecision) (w : World) :
  always_answers post1 -> always_answers post2 ->
  carry_out (with_post E post1) annotation decision w
  = carry_out (with_post E post2) annotation decision w.
Proof.
  intros H1 H2. destruct decision as [channel|]; [|reflexivity].
  unfold carry_out.
  change (generate_slack_message_block (with_post E post1) annotation)
    with (generate_slack_message_block E annotation).
  change (generate_slack_message_block (with_post E post2) annotation)
    with (generate_slack_message_block E annotation).
  apply bind_ext; intros blocks w'.
  now apply post_message_to_slack_with_post.
Qed.

Lemma run_paper_with_post
    (E : Env) (post1 post2 : World -> string -> string -> exn + Response)
    (paper : arxiv_Result) (acc : list value) (w : World) :
  always_answers post1 -> always_answers post2 ->
  run_paper (with_post E post1) paper acc w = run_paper (with_post E post2) paper acc w.
Proof.
  intros H1 H2. unfold run_paper.
  change (ask_gpt (with_post E post1)) with (ask_gpt E).
  change (ask_gpt (with_post E post2)) with (ask_gpt E).
  apply bind_ext; intros annotation w1.
  apply bind_ext; intros annotation' w2.
  unfold bind. rewrite !handle_paper_route.
  destruct (route annotation') as [e|decision]; [reflexivity|].
  now rewrite (carry_out_with_post E post1 post2 annotation' decision w2 H1 H2).
Qed.

Lemma run_loop_with_post
    (E : Env) (post1 post2 : World -> string -> string -> exn + Response)
    (papers : list arxiv_Result) (acc : list value) (w : World) :
  always_answers post1 -> always_answers post2 ->
  run_loop (with_post E post1) papers acc w = run_loop (with_post E post2) papers acc w.
Proof.
  intros H1 H2. revert acc w.
  induction papers as [|paper rest IH]; intros acc w; simpl; [reflexivity|].
  rewrite (bind_ext (run_paper (with_post E post1) paper acc)
             (fun a => run_loop (with_post E post1) rest a)
             (fun a => run_loop (with_post E post2) rest a) w IH).
  unfold bind. now rewrite (run_paper_with_post E post1 post2 paper acc w H1 H2).
Qed.

(** C10.  The response of a delivery is dropped.  Take two Slack endpoints
    that answer every POST, with whatever status (one with 200, the other
    with 500, say), behind the same host: the entry point returns the same
    result and leaves the same trace with either, and a run that reports
    success with one reports success with the other. *)
Theorem delivery_response_discarded
    (E : Env) (post1 post2 : World -> string -> string -> exn + Response)
    (event context : value) (w : World)
    (H1 : always_answers post1) (H2 : always_answers post2) :
  lambda_handler (with_post E post1) event context w
  = lambda_handler (with_post E post2) event context w
  /\ (forall w', run (with_post E post1) w = (inr tt, w') ->
                 run (with_post E post2) w = (inr tt, w')).
Proof.
  assert (Hrun : run (with_post E post1) w = run (with_post E post2) w).
  { unfold run.
    change (obtain_latest_papers (with_post E post1)) with (obtain_latest_papers E).
    change (obtain_latest_papers (with_post E post2)) with (obtain_latest_papers E).
    apply bind_ext; intros papers w0. unfold bind.
    now rewrite (run_loop_with_post E post1 post2 papers [] w0 H1 H2). }
  split.
  - unfold lambda_handler. rewrite Hrun. reflexivity.
  - intros w' Hok. now rewrite <- Hrun.
Qed.

(** Every POST answered with status 500: the run reports what it reports
    when every POST is answered with status 200. *)
Lemma delivery_response_discarded_witness :
  lambda_handler
    (with_post
       (Script.host Script.jan16 [Script.p1] [Script.text_of Script.sc_reply] 200)
       (fun _ _ _ => inr {| status_code := 500; text := "no_service" |}))
    (VDict []) VNone []
  = (VDict [("status", VStr "True")],
     [ArxivSearch "cat:quant-ph" 100 SubmittedDate;
      request_for Script.p1;
      HttpPost "journal_hub" slack_hook "<message First>"]).
Proof.
  rewrite (proj1 (delivery_response_discarded
            (Script.host Script.jan16 [Script.p1] [Script.text_of Script.sc_reply] 200)
            (fun _ _ _ => inr {| status_code := 500; text := "no_service" |})
            (fun _ _ _ => inr {| status_code := 200; text := "ok" |})
            (VDict []) VNone []
            (fun _ _ _ => ex_intro _ _ eq_refl)
            (fun _ _ _ => ex_intro _ _ eq_refl))).
  reflexivity.
Defined.

(** ** Whole runs *)

(** Five papers returned, three of them of yesterday; the model answers
    with a superconducting experiment, an ion-trap experiment and a theory
    paper: the first goes to 'journal_hub', the second is passed over, the
    third goes to 'theory'. *)
Example run_three_of_five :
  lambda_handler
    (Script.host Script.jan16
       [Script.p1; Script.q1; Script.p2; Script.q2; Script.p3]
       [Script.text_of Script.sc_reply; Script.text_of Script.ion_reply;
        Script.text_of Script.theory_reply] 200)
    (VDict []) VNone []
  = (VDict [("status", VStr "True")],
     [ArxivSearch "cat:quant-ph" 100 SubmittedDate;
      request_for Script.p1;
      HttpPost "journal_hub" slack_hook "<message First>";
      request_for Script.p2;
      request_for Script.p3;
      HttpPost "theory" slack_hook "<message Third>"]).
Proof. vm_compute. reflexivity. Qed.

(** A reply with the key Platform only is routed to 'journal_hub', and the
    formatter then stops the run on the missing key Type. *)
Example run_partial_annotation :
  lambda_handler
    (Script.host Script.jan16 [Script.p1]
       ["{" ++ Script.jstr "Platform" ++ ": "
            ++ Script.jstr "Superconducting circuits" ++ "}"] 200)
    (VDict []) VNone []
  = (VDict [("status", VBool false); ("error", VStr "'Type'")],
     [ArxivSearch "cat:quant-ph" 100 SubmittedDate; request_for Script.p1]).
Proof. vm_compute. reflexivity. Qed.

(** A paper stamped at midnight belongs to the day that starts, one stamped
    a second earlier to the day before. *)
Example day_boundary :
  published_on Script.p3 Script.jan15 = true
  /\ published_on Script.q1 Script.jan15 = false.
Proof. split; reflexivity. Qed.

(** * Further properties of the module *)

(** ** The search request and the feed's failures *)

(** X1.  [obtain_latest_papers] makes exactly one search request, for
    [cat:<category>] with the given cap, sorted by submission date,
    whether it then returns or raises. *)
Theorem obtain_latest_papers_one_search
    (E : Env) (category : string) (max_results : Z) (w : World) :
  snd (obtain_latest_papers E category max_results w)
  = (w ++ [ArxivSearch ("cat:" ++ category) max_results SubmittedDate])%list.
Proof.
  unfold obtain_latest_papers, bind, Search_results, lift, ret.
  destruct (arxiv_results E w _ _ _) as [e|results]; [reflexivity|].
  destruct (date_sub_days (date_today E) 1); reflexivity.
Qed.

(** X2.  When the feed provider raises, the exception reaches the entry
    point: the result is status False with the text of the exception, and
    nothing was asked of the model or posted; the trace holds the search
    alone. *)
Theorem feed_failure_reported
    (E : Env) (event context : value) (w : World) (e : exn)
    (Hfeed : arxiv_results E w "cat:quant-ph" 100 SubmittedDate = inl e) :
  lambda_handler E event context w
  = (VDict [("status", VBool false); ("error", VStr (exn_str E e))],
     (w ++ [ArxivSearch "cat:quant-ph" 100 SubmittedDate])%list).
Proof.
  apply lambda_handler_on_exception.
  unfold run, obtain_latest_papers, bind, Search_results.
  change ("cat:" ++ "quant-ph") with "cat:quant-ph". now rewrite Hfeed.
Qed.

Lemma feed_failure_reported_witness :
  lambda_handler (host_without_feed (LibraryError "HTTPError" "503")) (VDict []) VNone []
  = (VDict [("status", VBool false); ("error", VStr "503")],
     [ArxivSearch "cat:quant-ph" 100 SubmittedDate]).
Proof.
  apply (feed_failure_reported (host_without_feed (LibraryError "HTTPError" "503"))
           (VDict []) VNone [] (LibraryError "HTTPError" "503")).
  reflexivity.
Defined.

(** X3.  When none of the returned papers is of yesterday (an empty feed
    included), the run ends normally: the model is not asked, nothing is
    posted, and the entry point returns the status 'True'. *)
Theorem nothing_to_do
    (E : Env) (event context : value) (w : World)
    (results : list arxiv_Result) (target : date)
    (Hfeed : arxiv_results E w "cat:quant-ph" 100 SubmittedDate = inr results)
    (Hday : date_sub_days (date_today E) 1 = inr target)
    (Hnone : forall paper, In paper results -> datetime_date (published paper) <> target) :
  lambda_handler E event context w
  = (VDict [("status", VStr "True")],
     (w ++ [ArxivSearch "cat:quant-ph" 100 SubmittedDate])%list).
Proof.
  apply lambda_handler_on_return with (u := tt).
  destruct (obtain_latest_papers_same_day E "quant-ph" 100 w results target Hfeed Hday)
    as (Hout & _ & Hempty).
  unfold run, bind. rewrite Hout, (Hempty Hnone). reflexivity.
Qed.

Lemma nothing_to_do_witness :
  lambda_handler
    (Script.host Script.jan16 [Script.q1; Script.q2] [] 200) (VDict []) VNone []
  = (VDict [("status", VStr "True")],
     [ArxivSearch "cat:quant-ph" 100 SubmittedDate]).
Proof.
  apply (nothing_to_do (Script.host Script.jan16 [Script.q1; Script.q2] [] 200)
           (VDict []) VNone [] [Script.q1; Script.q2] Script.jan15 eq_refl eq_refl).
  intros paper [<- | [<- | []]]; discriminate.
Defined.

(** ** The reply of the model *)

Lemma getitem_int_head (x : value) (l : list value) :
  getitem_int (VList (x :: l)) 0 = inr x.
Proof.
  unfold getitem_int.
  assert (H : (0 <? Z.of_nat (length (x :: l))) = true)
    by (apply Z.ltb_lt; simpl length; lia).
  change (0 <? 0) with false. cbv iota. rewrite H. reflexivity.
Qed.

(** X4.  From a response object [get_gpt_reply] returns the content of
    the message of the first choice; further choices and the other keys of
    the response play no part. *)
Theorem get_gpt_reply_first_choice
    (E : Env) (message : string) (w : World)
    (response choice msg : list (string * value)) (others : list value) (content : value)
    (Hresp : openai_create E w (chat_request message) = inr (VDict response))
    (Hchoices : dict_get "choices" response = Some (VList (VDict choice :: others)))
    (Hmsg : dict_get "message" choice = Some (VDict msg))
    (Hcontent : dict_get "content" msg = Some content) :
  get_gpt_reply E message w
  = (inr content, (w ++ [ChatCompletion (chat_request message)])%list).
Proof.
  unfold get_gpt_reply, bind, ChatCompletion_create, lift.
  fold (chat_request message). rewrite Hresp.
  unfold getitem_str at 1. rewrite Hchoices, getitem_int_head.
  unfold getitem_str. now rewrite Hmsg, Hcontent.
Qed.

Lemma get_gpt_reply_first_choice_witness :
  get_gpt_reply (Script.host Script.jan16 [] ["{}"] 200) "hello" []
  = (inr (VStr "{}"), [ChatCompletion (chat_request "hello")]).
Proof.
  apply (get_gpt_reply_first_choice (Script.host Script.jan16 [] ["{}"] 200) "hello" []
           [("choices",
             VList [VDict [("index", VInt 0);
                           ("message", VDict [("role", VStr "assistant");
                                              ("content", VStr "{}")])]])]
           [("index", VInt 0);
            ("message", VDict [("role", VStr "assistant"); ("content", VStr "{}")])]
           [("role", VStr "assistant"); ("content", VStr "{}")]
           [] (VStr "{}")); reflexivity.
Defined.

(** X5.  A failure of the completion call, or a response of another
    shape, ends [get_gpt_reply] with an exception after the one request:
    the provider's own exception, KeyError for a response dict without
    'choices', IndexError for an empty list of choices. *)
Theorem get_gpt_reply_failures
    (E : Env) (message : string) (w : World) :
  (forall e,
      openai_create E w (chat_request message) = inl e ->
      get_gpt_reply E message w
      = (inl e, (w ++ [ChatCompletion (chat_request message)])%list))
  /\ (forall response,
      openai_create E w (chat_request message) = inr (VDict response) ->
      dict_get "choices" response = None ->
      get_gpt_reply E message w
      = (inl (KeyError (VStr "choices")),
         (w ++ [ChatCompletion (chat_request message)])%list))
  /\ (forall response,
      openai_create E w (chat_request message) = inr (VDict response) ->
      dict_get "choices" response = Some (VList []) ->
      get_gpt_reply E message w
      = (inl IndexError, (w ++ [ChatCompletion (chat_request message)])%list)).
Proof.
  repeat split; intros;
    unfold get_gpt_reply, bind, ChatCompletion_create, lift;
    fold (chat_request message).
  - now rewrite H.
  - rewrite H. unfold getitem_str. now rewrite H0.
  - rewrite H. unfold getitem_str at 1. rewrite H0. reflexivity.
Qed.

(** X6.  [ask_gpt] hands the reply to [json.loads] as it is: a content
    that is not a [str] (null, say) raises TypeError. *)
Theorem ask_gpt_content_not_text
    (E : Env) (title abstract : string) (w w1 : World) (content : value)
    (Hreply : get_gpt_reply E (prompt_of title abstract) w = (inr content, w1))
    (Hnot : forall s, content <> VStr s) :
  ask_gpt E title abstract w = (inl TypeError, w1).
Proof.
  unfold ask_gpt, bind, lift. rewrite Hreply.
  destruct content; try reflexivity. now destruct (Hnot s).
Qed.

Lemma ask_gpt_content_not_text_witness :
  ask_gpt
    (host_answering
       (VDict [("choices", VList [VDict [("message", VDict [("content", VNone)])]])]))
    "First" "Abstract of First" []
  = (inl TypeError, [ChatCompletion (chat_request (prompt_of "First" "Abstract of First"))]).
Proof.
  apply (ask_gpt_content_not_text
           (host_answering
              (VDict [("choices", VList [VDict [("message", VDict [("content", VNone)])]])]))
           "First" "Abstract of First" []
           [ChatCompletion (chat_request (prompt_of "First" "Abstract of First"))]
           VNone eq_refl).
  discriminate.
Defined.

Lemma get_gpt_reply_failures_witness :
  get_gpt_reply (host_answering (VDict [("choices", VList [])])) "hello" []
  = (inl IndexError, [ChatCompletion (chat_request "hello")]).
Proof.
  apply (proj2 (proj2 (get_gpt_reply_failures
                         (host_answering (VDict [("choices", VList [])])) "hello" []))
           [("choices", VList [])]); reflexivity.
Defined.

(** ** The annotation of a paper *)

(** X7.  A reply that is JSON but not an object (null, a list, a string, a
    number) has no [update]: the turn raises AttributeError right after the
    request, and nothing is posted for the paper. *)
Theorem run_paper_reply_not_object
    (E : Env) (paper : arxiv_Result) (acc : list value) (w w1 : World) (reply : value)
    (Hask : ask_gpt E (title paper) (summary paper) w = (inr reply, w1))
    (Hnot : forall d, reply <> VDict d) :
  run_paper E paper acc w = (inl AttributeError, w1)
  /\ w1 = (w ++ [request_for paper])%list.
Proof.
  split.
  - unfold run_paper, bind, lift. rewrite Hask.
    destruct reply; try reflexivity. now destruct (Hnot d).
  - pose proof (ask_gpt_trace E (title paper) (summary paper) w) as Htrace.
    rewrite Hask in Htrace. exact Htrace.
Qed.

Lemma run_paper_reply_not_object_witness :
  run_paper host_replying_null Script.p1 [] []
  = (inl AttributeError, [request_for Script.p1]).
Proof.
  apply (proj1 (run_paper_reply_not_object host_replying_null
                  Script.p1 [] [] [request_for Script.p1] VNone eq_refl
                  ltac:(discriminate))).
Defined.

(** X8.  After [update] the annotation holds the paper's own title, author
    names joined by a comma and a space, abstract and URL under the keys
    title, authors, abstract and url, also when the model's reply had such
    keys; every other key of the reply keeps its value. *)
Theorem annotation_holds_paper_fields
    (paper : arxiv_Result) (d : list (string * value)) :
  let annotation := dict_update d (paper_fields paper) in
  dict_get "title" annotation = Some (VStr (title paper))
  /\ dict_get "authors" annotation
     = Some (VStr (String.concat ", " (map name (authors paper))))
  /\ dict_get "abstract" annotation = Some (VStr (summary paper))
  /\ dict_get "url" annotation = Some (VStr (entry_id paper))
  /\ (forall k, k <> "title" -> k <> "authors" -> k <> "abstract" -> k <> "url" ->
                dict_get k annotation = dict_get k d).
Proof.
  intros annotation. unfold annotation.
  split; [apply dict_get_update_title|].
  split; [unfold dict_update, paper_fields; simpl;
          rewrite !dict_get_set_other by discriminate; apply dict_get_set_same|].
  split; [unfold dict_update, paper_fields; simpl;
          rewrite !dict_get_set_other by discriminate; apply dict_get_set_same|].
  split; [apply dict_get_update_url|].
  intros k H1 H2 H3 H4. now apply dict_get_update_other.
Qed.

(** Keys of a dict stay distinct under a store, and so under [update]. *)
Lemma dict_set_keys (k : string) (v : value) (d : list (string * value)) :
  map fst (dict_set k v d)
  = match dict_get k d with
    | Some _ => map fst d
    | None => (map fst d ++ [k])%list
    end.
Proof.
  induction d as [|[k' v'] d IH]; simpl; [reflexivity|].
  destruct (String.eqb k k') eqn:Hk; simpl.
  - reflexivity.
  - rewrite IH. destruct (dict_get k d); reflexivity.
Qed.

Lemma dict_get_None_keys (k : string) (d : list (string * value)) :
  dict_get k d = None <-> ~ In k (map fst d).
Proof.
  induction d as [|[k' v'] d IH]; simpl.
  - tauto.
  - destruct (String.eqb_spec k k') as [->|Hne].
    + split; [discriminate|]. intros H. destruct H. now left.
    + rewrite IH. split.
      * intros H [Heq|Hin]; [now apply Hne|now apply H].
      * intros H Hin. apply H. now right.
Qed.

Lemma dict_set_NoDup (k : string) (v : value) (d : list (string * value)) :
  NoDup (map fst d) -> NoDup (map fst (dict_set k v d)).
Proof.
  intros Hnd. rewrite dict_set_keys. destruct (dict_get k d) eqn:Hk; [exact Hnd|].
  apply dict_get_None_keys in Hk.
  apply NoDup_rev in Hnd. rewrite <- (rev_involutive (map fst d ++ [k])).
  apply NoDup_rev. rewrite rev_app_distr. simpl. constructor; [|exact Hnd].
  now rewrite <- in_rev.
Qed.

(** X9.  [update] treats the annotation as a dict should be treated: when
    the keys of the reply are distinct, so are the keys of the annotation,
    and the keys of the reply keep their places at the front. *)
Theorem annotation_keys_distinct
    (paper : arxiv_Result) (d : list (string * value))
    (Hkeys : NoDup (map fst d)) :
  let annotation := dict_update d (paper_fields paper) in
  NoDup (map fst annotation)
  /\ exists added, map fst annotation = (map fst d ++ added)%list.
Proof.
  intros annotation. unfold annotation, dict_update, paper_fields. simpl. split.
  - now repeat apply dict_set_NoDup.
  - rewrite !dict_set_keys.
    repeat match goal with
           | |- context [match dict_get ?k ?x with _ => _ end] =>
               destruct (dict_get k x)
           end;
      rewrite <- ?app_assoc; eexists; try reflexivity.
    all: symmetry; apply app_nil_r.
Qed.

Lemma annotation_keys_distinct_witness :
  NoDup (map fst (dict_update [("Type", VNone); ("title", VStr "spoof")]
                    (paper_fields Script.p1))).
Proof.
  apply (annotation_keys_distinct Script.p1 [("Type", VNone); ("title", VStr "spoof")]).
  repeat constructor; simpl; intuition discriminate.
Defined.

(** ** The message *)

(** X10.  On a dict the formatter succeeds exactly when the six keys title,
    Type, Platform, Topic, url and Summary are all there; otherwise it
    raises KeyError for the first of them, in that order, that is
    missing. *)
Theorem generate_slack_message_block_first_missing
    (E : Env) (d : list (string * value)) :
  match first_missing block_keys d with
  | Some k => generate_slack_message_block E (VDict d) = inl (KeyError (VStr k))
  | None => exists blocks, generate_slack_message_block E (VDict d) = inr blocks
  end.
Proof.
  unfold generate_slack_message_block, getitem_str, block_keys, first_missing.
  destruct (dict_get "title" d); [|reflexivity].
  destruct (dict_get "Type" d); [|reflexivity].
  destruct (dict_get "Platform" d); [|reflexivity].
  destruct (dict_get "Topic" d); [|reflexivity].
  destruct (dict_get "url" d); [|reflexivity].
  destruct (dict_get "Summary" d); [|reflexivity].
  eexists; reflexivity.
Qed.

(** What is not a dict cannot be subscripted by a key. *)
Lemma generate_slack_message_block_dict (E : Env) (paper blocks : value) :
  generate_slack_message_block E paper = inr blocks ->
  exists d, paper = VDict d /\ first_missing block_keys d = None.
Proof.
  intros Hblocks. destruct paper; try discriminate Hblocks.
  exists d. split; [reflexivity|].
  pose proof (generate_slack_message_block_first_missing E d) as H.
  destruct (first_missing block_keys d); [|reflexivity].
  rewrite H in Hblocks. discriminate Hblocks.
Qed.

(** X11.  The message built in [run] for a paper shows the paper's own
    title in the header and the paper's entry id as URL, whatever the reply
    of the model says under the keys title and url; Type, Platform, Topic
    and Summary are the model's. *)
Theorem message_of_paper
    (E : Env) (paper : arxiv_Result) (d : list (string * value))
    (v_Type v_Platform v_Topic v_Summary : value)
    (HType : dict_get "Type" d = Some v_Type)
    (HPlatform : dict_get "Platform" d = Some v_Platform)
    (HTopic : dict_get "Topic" d = Some v_Topic)
    (HSummary : dict_get "Summary" d = Some v_Summary) :
  generate_slack_message_block E (VDict (dict_update d (paper_fields paper)))
  = inr (VDict
      [("blocks", VList
        [ VDict [("type", VStr "header");
                 ("text", VDict [("type", VStr "plain_text");
                                 ("text", VStr (title paper));
                                 ("emoji", VBool true)])];
          VDict [("type", VStr "section");
                 ("fields", VList
                   [ mrkdwn ("*Type:*" ++ nl ++ py_str E v_Type);
                     mrkdwn ("*Platform:*" ++ nl ++ py_str E v_Platform) ])];
          VDict [("type", VStr "section");
                 ("fields", VList
                   [ mrkdwn ("*Topic:*" ++ nl ++ py_str E v_Topic);
                     mrkdwn ("*URL:*" ++ nl ++ entry_id paper) ])];
          VDict [("type", VStr "section");
                 ("text", mrkdwn (py_str E v_Summary))] ])]).
Proof.
  apply (generate_slack_message_block_present E _
           (VStr (title paper)) v_Type v_Platform v_Topic
           (VStr (entry_id paper)) v_Summary);
    [apply dict_get_update_title | | | | apply dict_get_update_url | ];
    rewrite dict_get_update_other by discriminate; assumption.
Qed.

(** A reply that brings a title and a url of its own. *)
Lemma message_of_paper_witness :
  getitem_str
    (VDict (dict_update
              [("title", VStr "Spoof"); ("url", VStr "http://elsewhere");
               ("Type", VStr "Theory"); ("Platform", VNone);
               ("Topic", VNone); ("Summary", VStr "One.")]
              (paper_fields Script.p1))) "title"
  = inr (VStr "First")
  /\ exists blocks,
       generate_slack_message_block (Script.host Script.jan16 [] [] 200)
         (VDict (dict_update
                   [("title", VStr "Spoof"); ("url", VStr "http://elsewhere");
                    ("Type", VStr "Theory"); ("Platform", VNone);
                    ("Topic", VNone); ("Summary", VStr "One.")]
                   (paper_fields Script.p1)))
       = inr blocks
       /\ Script.dumps blocks = "<message First>".
Proof.
  split; [reflexivity|]. eexists. split.
  - apply (message_of_paper (Script.host Script.jan16 [] [] 200) Script.p1
             [("title", VStr "Spoof"); ("url", VStr "http://elsewhere");
              ("Type", VStr "Theory"); ("Platform", VNone);
              ("Topic", VNone); ("Summary", VStr "One.")]
             (VStr "Theory") VNone VNone (VStr "One.")); reflexivity.
  - reflexivity.
Defined.

(** ** Delivery *)

(** X12.  For each of the three channels 'bottest', 'journal_hub' and
    'theory', [post_message_to_slack] makes exactly one POST, of
    [json.dumps(fields)] to the channel's hook, and hands on what
    [requests.post] gives: its response, whatever the status, or its
    exception. *)
Theorem post_message_to_slack_known_channel
    (E : Env) (fields : value) (channel : string) (w : World)
    (Hchannel : channel = "bottest" \/ channel = "journal_hub" \/ channel = "theory") :
  post_message_to_slack E fields channel w
  = (requests_post E w slack_hook (json_dumps E fields),
     (w ++ [HttpPost channel slack_hook (json_dumps E fields)])%list).
Proof.
  destruct Hchannel as [-> | [-> | ->]];
    unfold post_message_to_slack; simpl;
    unfold bind, requests_post_for, ret, slack_hook;
    destruct (requests_post E w _ _); reflexivity.
Qed.

Lemma post_message_to_slack_known_channel_witness :
  post_message_to_slack (host_without_feed TypeError) (VDict []) "bottest" []
  = (inl (LibraryError "ConnectionError" "down"),
     [HttpPost "bottest" slack_hook "<json>"]).
Proof.
  apply (post_message_to_slack_known_channel (host_without_feed TypeError)
           (VDict []) "bottest" [] (or_introl eq_refl)).
Defined.

(** ** What a run sends *)

Lemma route_outcomes (annotation : value) (decision : RoutingDecision) :
  route annotation = inr decision ->
  decision = Destination "journal_hub" \/ decision = Suppress
  \/ decision = Destination "theory".
Proof.
  unfold route. intros H.
  destruct (getitem_str annotation "Platform") as [e|p]; [discriminate|].
  destruct (py_eq_str p "Superconducting circuits"); [injection H as <-; auto|].
  destruct (getitem_str annotation "Type") as [e|t]; [discriminate|].
  destruct (py_eq_str t "Experiment"); injection H as <-; auto.
Qed.

(** The routing statement leaves the trace as it is, or adds one POST of a
    message the formatter built, for 'journal_hub' or 'theory'. *)
Lemma handle_paper_trace (E : Env) (annotation : value) (w : World) :
  snd (handle_paper E annotation w) = w
  \/ exists channel blocks,
       (channel = "journal_hub" \/ channel = "theory")
       /\ generate_slack_message_block E annotation = inr blocks
       /\ snd (handle_paper E annotation w)
          = (w ++ [HttpPost channel slack_hook (json_dumps E blocks)])%list.
Proof.
  rewrite handle_paper_route.
  destruct (route annotation) as [e|decision] eqn:Hroute; [now left|].
  destruct (route_outcomes annotation decision Hroute) as [-> | [-> | ->]].
  - destruct (generate_slack_message_block E annotation) as [e|blocks] eqn:Hb.
    + left. unfold carry_out, bind, lift. now rewrite Hb.
    + right. exists "journal_hub", blocks. repeat split; auto.
      now apply carry_out_destination_trace; auto.
  - now left.
  - destruct (generate_slack_message_block E annotation) as [e|blocks] eqn:Hb.
    + left. unfold carry_out, bind, lift. now rewrite Hb.
    + right. exists "theory", blocks. repeat split; auto.
      now apply carry_out_destination_trace; auto.
Qed.

(** X13.  Nothing is posted for an annotation that lacks one of the six
    keys of the message: if the routing statement adds to the trace, the
    annotation is a dict that holds them all. *)
Theorem no_post_without_keys
    (E : Env) (annotation : value) (w : World)
    (Hposted : snd (handle_paper E annotation w) <> w) :
  exists d, annotation = VDict d
            /\ forall k, In k block_keys -> dict_get k d <> None.
Proof.
  destruct (handle_paper_trace E annotation w) as [Hsame | (ch & blocks & _ & Hb & _)];
    [now destruct Hposted|].
  destruct (generate_slack_message_block_dict E annotation blocks Hb) as (d & -> & Hall).
  exists d. split; [reflexivity|].
  unfold block_keys, first_missing in Hall.
  intros k Hk Hnone. simpl in Hk.
  destruct (dict_get "title" d) eqn:H1; [|discriminate].
  destruct (dict_get "Type" d) eqn:H2; [|discriminate].
  destruct (dict_get "Platform" d) eqn:H3; [|discriminate].
  destruct (dict_get "Topic" d) eqn:H4; [|discriminate].
  destruct (dict_get "url" d) eqn:H5; [|discriminate].
  destruct (dict_get "Summary" d) eqn:H6; [|discriminate].
  destruct Hk as [<-|[<-|[<-|[<-|[<-|[<-|[]]]]]]]; congruence.
Qed.

Lemma no_post_without_keys_witness :
  exists d,
    VDict (dict_update
             [("Type", VStr "Theory"); ("Platform", VNone);
              ("Topic", VStr "Error-correction"); ("Summary", VStr "Three.")]
             (paper_fields Script.p1)) = VDict d
    /\ forall k, In k block_keys -> dict_get k d <> None.
Proof.
  apply (no_post_without_keys (Script.host Script.jan16 [] [] 200)
           (VDict (dict_update
                     [("Type", VStr "Theory"); ("Platform", VNone);
                      ("Topic", VStr "Error-correction"); ("Summary", VStr "Three.")]
                     (paper_fields Script.p1))) []).
  vm_compute. discriminate.
Defined.

(** One turn of the loop: the request for the paper, then at most one POST. *)
Lemma run_paper_trace (E : Env) (paper : arxiv_Result) (acc : list value) (w : World) :
  exists posts,
    snd (run_paper E paper acc w) = (w ++ request_for paper :: posts)%list
    /\ (posts = []
        \/ exists channel data,
             (channel = "journal_hub" \/ channel = "theory")
             /\ posts = [HttpPost channel slack_hook data]).
Proof.
  unfold run_paper, bind.
  pose proof (ask_gpt_trace E (title paper) (summary paper) w) as Hask.
  destruct (ask_gpt E (title paper) (summary paper) w) as [[e|reply] w1];
    simpl in Hask; subst w1.
  { exists []. split; [reflexivity|now left]. }
  unfold lift. destruct (py_update reply (paper_fields paper)) as [e|annotation].
  { exists []. split; [reflexivity|now left]. }
  destruct (handle_paper_trace E annotation
              (w ++ [ChatCompletion
                       (chat_request (prompt_of (title paper) (summary paper)))])%list)
    as [Hsame | (channel & blocks & Hch & _ & Hpost)].
  - exists []. split; [|now left].
    destruct (handle_paper E annotation _) as [[e|u] w2]; simpl in *; subst w2; reflexivity.
  - exists [HttpPost channel slack_hook (json_dumps E blocks)]. split.
    + destruct (handle_paper E annotation _) as [[e|u] w2]; simpl in *; subst w2;
        now rewrite <- app_assoc.
    + right. eauto.
Qed.

(** The loop: requests for the first [n] papers, one by one and in order,
    each followed by at most one POST; all papers when the loop returns. *)
Lemma run_loop_trace (E : Env) (papers : list arxiv_Result) (acc : list value) (w : World) :
  exists n evs,
    (n <= length papers)%nat
    /\ snd (run_loop E papers acc w) = (w ++ evs)%list
    /\ filter is_completion evs = map request_for (firstn n papers)
    /\ Forall loop_event evs
    /\ (length (filter is_post evs) <= n)%nat
    /\ (forall acc', fst (run_loop E papers acc w) = inr acc' -> n = length papers).
Proof.
  revert acc w. induction papers as [|paper rest IH]; intros acc w.
  - exists 0%nat, []. simpl. rewrite app_nil_r. repeat split; auto.
  - simpl run_loop. unfold bind.
    destruct (run_paper_trace E paper acc w) as (posts & Hturn & Hposts).
    assert (Hfc : filter is_completion posts = []).
    { destruct Hposts as [-> | (ch & data & _ & ->)]; reflexivity. }
    assert (Hfp : (length (filter is_post posts) <= 1)%nat).
    { destruct Hposts as [-> | (ch & data & _ & ->)]; simpl; lia. }
    assert (Hok : Forall loop_event posts).
    { destruct Hposts as [-> | (ch & data & Hch & ->)]; [constructor|].
      constructor; [|constructor]. split; [exact Hch|reflexivity]. }
    destruct (run_paper E paper acc w) as [[e|acc1] w1]; simpl in Hturn; subst w1.
    + exists 1%nat, (request_for paper :: posts). simpl.
      rewrite Hfc. repeat split; auto; try lia.
      * constructor; [exact I|exact Hok].
      * intros acc' H; discriminate H.
    + destruct (IH acc1 (w ++ request_for paper :: posts)%list)
        as (n & evs & Hn & Htrace & Hreq & Hall & Hcount & Hdone).
      exists (S n), (request_for paper :: posts ++ evs)%list. simpl.
      rewrite Htrace, filter_app, Hfc, Hreq. simpl.
      repeat split; try lia.
      * now rewrite <- app_assoc.
      * constructor; [exact I|]. apply Forall_app. now split.
      * rewrite filter_app, length_app. lia.
      * intros acc' H. f_equal. now apply (Hdone acc').
Qed.

Lemma lambda_handler_trace (E : Env) (event context : value) (w : World) :
  snd (lambda_handler E event context w) = snd (run E w).
Proof.
  unfold lambda_handler. destruct (run E w) as [[e|u] w']; reflexivity.
Qed.

(** X14.  Whatever the providers do, a run sends one search, and after it
    only requests to the model and POSTs for the channels 'journal_hub' and
    'theory' (never 'bottest'), all to the hook of the source; it makes no
    more POSTs than requests to the model. *)
Theorem run_sends
    (E : Env) (event context : value) (w : World) :
  exists evs,
    snd (lambda_handler E event context w)
    = (w ++ ArxivSearch "cat:quant-ph" 100 SubmittedDate :: evs)%list
    /\ Forall loop_event evs
    /\ (length (filter is_post evs) <= length (filter is_completion evs))%nat.
Proof.
  rewrite lambda_handler_trace. unfold run, bind.
  pose proof (obtain_latest_papers_one_search E "quant-ph" 100 w) as Hsearch.
  change ("cat:" ++ "quant-ph") with "cat:quant-ph" in Hsearch.
  destruct (obtain_latest_papers E "quant-ph" 100 w) as [[e|papers] w0];
    simpl in Hsearch; subst w0.
  - exists []. simpl. repeat split; auto.
  - destruct (run_loop_trace E papers []
                (w ++ [ArxivSearch "cat:quant-ph" 100 SubmittedDate])%list)
      as (n & evs & Hn & Htrace & Hreq & Hall & Hcount & _).
    exists evs. split; [|split; [exact Hall|]].
    + destruct (run_loop E papers [] _) as [[e|acc] w1]; simpl in *; subst w1;
        now rewrite <- app_assoc.
    + rewrite Hreq, length_map, length_firstn. lia.
Qed.

(** X15.  The papers of the day are sent to the model one request each, in
    the order of the feed, up to the paper at which the run stops; when the
    entry point reports 'True', every paper of the day was sent. *)
Theorem requests_follow_feed
    (E : Env) (event context : value) (w w0 : World) (papers : list arxiv_Result)
    (Hfeed : obtain_latest_papers E "quant-ph" 100 w = (inr papers, w0)) :
  exists n,
    (n <= length papers)%nat
    /\ filter is_completion (snd (lambda_handler E event context w))
       = (filter is_completion w ++ map request_for (firstn n papers))%list
    /\ (fst (lambda_handler E event context w) = VDict [("status", VStr "True")] ->
        n = length papers).
Proof.
  pose proof (obtain_latest_papers_one_search E "quant-ph" 100 w) as Hsearch.
  rewrite Hfeed in Hsearch. simpl in Hsearch. subst w0.
  destruct (run_loop_trace E papers []
              (w ++ [ArxivSearch ("cat:" ++ "quant-ph") 100 SubmittedDate])%list)
    as (n & evs & Hn & Htrace & Hreq & _ & _ & Hdone).
  exists n. split; [exact Hn|].
  unfold lambda_handler, run, bind. rewrite Hfeed.
  destruct (run_loop E papers [] _) as [[e|acc] w1]; simpl in Htrace; subst w1; simpl.
  - split; [|discriminate].
    rewrite !filter_app. simpl. now rewrite Hreq, app_nil_r.
  - split; [|intros _; now apply (Hdone acc)].
    rewrite !filter_app. simpl. now rewrite Hreq, app_nil_r.
Qed.

Lemma requests_follow_feed_witness :
  filter is_completion
    (snd (lambda_handler
            (Script.host Script.jan16
               [Script.p1; Script.q1; Script.p2; Script.q2; Script.p3]
               [Script.text_of Script.sc_reply; "not json"] 200)
            (VDict []) VNone []))
  = [request_for Script.p1; request_for Script.p2].
Proof.
  destruct (requests_follow_feed
              (Script.host Script.jan16
                 [Script.p1; Script.q1; Script.p2; Script.q2; Script.p3]
                 [Script.text_of Script.sc_reply; "not json"] 200)
              (VDict []) VNone []
              [ArxivSearch "cat:quant-ph" 100 SubmittedDate]
              [Script.p1; Script.p2; Script.p3] eq_refl) as (n & _ & Hreq & _).
  vm_compute. reflexivity.
Defined.

(** ** Yesterday *)

(** [fromordinal], read as: the chain of divisions, then the month and the
    day of what is left over. *)
Lemma fromordinal_chain (n : Z) :
  fromordinal n
  = let '(n400, n100, n4, n1, doy) := year_chain (n - 1) in
    let y := n400 * 400 + 1 + n100 * 100 + n4 * 4 + n1 in
    if (n1 =? 4) || (n100 =? 4)
    then {| year := y - 1; month := 12; day := 31 |}
    else
      let '(m, d) := month_day ((n1 =? 3) && (negb (n4 =? 24) || (n100 =? 3))) doy in
      {| year := y; month := m; day := d |}.
Proof.
  unfold fromordinal, year_chain, month_day. cbv zeta beta iota.
  destruct (_ || _); [reflexivity|].
  match goal with |- (if ?c then _ else _) = _ => destruct c; reflexivity end.
Qed.

(** Between two numbers with the same quotient, the quotient stays and the
    remainder counts up. *)
Lemma div_mod_between (c s e n : Z) :
  0 < c -> s <= n <= e -> s / c = e / c ->
  n / c = s / c /\ n mod c = s mod c + (n - s).
Proof.
  intros Hc Hn Hse.
  assert (Hq : n / c = s / c).
  { pose proof (Z.div_le_mono s n c Hc ltac:(lia)).
    pose proof (Z.div_le_mono n e c Hc ltac:(lia)). lia. }
  split; [exact Hq|].
  rewrite (Z.mod_eq n c), (Z.mod_eq s c) by lia. rewrite Hq. lia.
Qed.

(** Between two day counts with the same first four numbers, the four
    numbers stay and the days left over count up. *)
Lemma year_chain_between (s e n : Z) (q400 q100 q4 q1 ds de : Z) :
  year_chain s = (q400, q100, q4, q1, ds) ->
  year_chain e = (q400, q100, q4, q1, de) ->
  s <= n <= e ->
  year_chain n = (q400, q100, q4, q1, ds + (n - s)).
Proof.
  unfold year_chain. intros Hs He Hn.
  injection Hs as Hs400 Hs100 Hs4 Hs1 Hsd. injection He as He400 He100 He4 He1 Hed.
  destruct (div_mod_between 146097 s e n) as [Hn400 Hnr400]; try lia.
  destruct (div_mod_between 146097 s e e) as [_ Her400]; try lia.
  destruct (div_mod_between 36524 (s mod 146097) (e mod 146097) (n mod 146097))
    as [Hn100 Hnr100]; try lia.
  destruct (div_mod_between 36524 (s mod 146097) (e mod 146097) (e mod 146097))
    as [_ Her100]; try lia.
  destruct (div_mod_between 1461 (s mod 146097 mod 36524) (e mod 146097 mod 36524)
              (n mod 146097 mod 36524)) as [Hn4 Hnr4]; try lia.
  destruct (div_mod_between 1461 (s mod 146097 mod 36524) (e mod 146097 mod 36524)
              (e mod 146097 mod 36524)) as [_ Her4]; try lia.
  destruct (div_mod_between 365 (s mod 146097 mod 36524 mod 1461)
              (e mod 146097 mod 36524 mod 1461)
              (n mod 146097 mod 36524 mod 1461)) as [Hn1 Hnr1]; try lia.
  rewrite Hn400, Hn100, Hn4, Hn1, Hnr1, Hnr4, Hnr100, Hnr400.
  rewrite Hs400, Hs100, Hs4, Hs1, Hsd. do 2 f_equal. ring.
Qed.

Lemma all_from_spec (f : Z -> bool) (n : nat) (z : Z) :
  all_from f n z = true ->
  forall x, z <= x < z + Z.of_nat n -> f x = true.
Proof.
  revert z; induction n as [|n IH]; intros z Hall x Hx.
  - simpl in Hx. lia.
  - simpl in Hall. apply andb_true_iff in Hall as [Hz Hrest].
    destruct (Z.eq_dec x z) as [->|Hne]; [exact Hz|].
    apply (IH (z + 1) Hrest). lia.
Qed.

Lemma years_checked : all_from year_ok 400 1 = true.
Proof. vm_compute. reflexivity. Qed.

Lemma months_checked : months_ok true && months_ok false = true.
Proof. vm_compute. reflexivity. Qed.

Lemma months_ok_leap (leap : bool) : months_ok leap = true.
Proof.
  pose proof months_checked as H. apply andb_true_iff in H as [Ht Hf].
  destruct leap; assumption.
Qed.

Lemma month_checked (leap : bool) (m : Z) :
  1 <= m <= 12 ->
  0 <= days_before_month_of leap m
  /\ 1 <= days_in_month_of leap m
  /\ (2 <= m ->
      days_before_month_of leap m
      = days_before_month_of leap (m - 1) + days_in_month_of leap (m - 1)).
Proof.
  intros Hm. pose proof (months_ok_leap leap) as H. unfold months_ok in H.
  pose proof (all_from_spec _ 12 1 H m ltac:(change (Z.of_nat 12) with 12; lia)) as Hmonth.
  cbv beta in Hmonth. apply andb_true_iff in Hmonth as [Hok _].
  unfold month_ok in Hok.
  apply andb_true_iff in Hok as [Hok Hstep]. apply andb_true_iff in Hok as [H0 H1].
  apply Z.leb_le in H0, H1. repeat split; try assumption.
  intros H2. apply Z.leb_le in H2. rewrite H2 in Hstep. now apply Z.eqb_eq in Hstep.
Qed.

Lemma day_checked (leap : bool) (m d : Z) :
  1 <= m <= 12 -> 1 <= d <= days_in_month_of leap m ->
  month_day leap (days_before_month_of leap m + d - 1) = (m, d)
  /\ days_before_month_of leap m + d - 1 <= (if leap then 365 else 364).
Proof.
  intros Hm Hd. pose proof (months_ok_leap leap) as H. unfold months_ok in H.
  pose proof (all_from_spec _ 12 1 H m ltac:(change (Z.of_nat 12) with 12; lia)) as Hmonth.
  cbv beta in Hmonth. apply andb_true_iff in Hmonth as [_ Hdays].
  assert (H31 : days_in_month_of leap m <= 31).
  { unfold days_in_month_of. destruct ((m =? 2) && leap); [lia|]. unfold DAYS_IN_MONTH.
    destruct (Z.to_nat m) as [|[|[|[|[|[|[|[|[|[|[|[|[|[|k]]]]]]]]]]]]]]; simpl; lia. }
  pose proof (all_from_spec _ 31 1 Hdays d ltac:(change (Z.of_nat 31) with 31; lia)) as Hday.
  cbv beta in Hday. unfold day_ok in Hday.
  assert (Hle : (d <=? days_in_month_of leap m) = true) by (apply Z.leb_le; lia).
  rewrite Hle in Hday. cbv zeta in Hday. simpl implb in Hday.
  destruct (month_day leap (days_before_month_of leap m + d - 1)) as [mm dd].
  apply andb_true_iff in Hday as [Hday Hn]. apply andb_true_iff in Hday as [Hmm Hdd].
  apply Z.eqb_eq in Hmm, Hdd. apply Z.leb_le in Hn. subst. auto.
Qed.

Lemma year_checked (y : Z) :
  1 <= y <= 400 ->
  exists q400 q100 q4 q1 de,
    year_chain (days_before_year y) = (q400, q100, q4, q1, 0)
    /\ year_chain (days_before_year y + 364) = (q400, q100, q4, q1, de)
    /\ q400 * 400 + 1 + q100 * 100 + q4 * 4 + q1 = y
    /\ (q1 =? 4) || (q100 =? 4) = false
    /\ (q1 =? 3) && (negb (q4 =? 24) || (q100 =? 3)) = is_leap y
    /\ days_before_year (y + 1)
       = days_before_year y + (if is_leap y then 366 else 365)
    /\ (is_leap y = true ->
        fromordinal (days_before_year y + 366) = {| year := y; month := 12; day := 31 |})
    /\ (y = 1 \/ 1 <= days_before_year y)
    /\ days_before_year y + (if is_leap y then 366 else 365)
       <= (if y =? 400 then 146097 else 145731).
Proof.
  intros Hy.
  pose proof (all_from_spec _ 400 1 years_checked y
                ltac:(change (Z.of_nat 400) with 400; lia)) as H.
  unfold year_ok in H. cbv zeta in H.
  destruct (year_chain (days_before_year y)) as [[[[q400 q100] q4] q1] ds].
  destruct (year_chain (days_before_year y + 364)) as [[[[p400 p100] p4] p1] de].
  repeat match type of H with
         | (_ && _) = true => apply andb_true_iff in H as [H ?H]
         end.
  repeat match goal with
         | H : (_ =? _) = true |- _ => apply Z.eqb_eq in H
         | H : (_ <=? _) = true |- _ => apply Z.leb_le in H
         end.
  subst p400 p100 p4 p1 ds.
  exists q400, q100, q4, q1, de. repeat split; try assumption.
  - match goal with H : negb _ = true |- _ => now apply negb_true_iff in H end.
  - match goal with H : Bool.eqb _ _ = true |- _ => now apply Bool.eqb_prop in H end.
  - intros Hleap.
    match goal with
    | H : (if is_leap y then _ else true) = true |- _ =>
        rewrite Hleap in H; now apply date_eqb_eq in H
    end.
  - match goal with
    | H : (y =? 1) || _ = true |- _ =>
        apply orb_true_iff in H as [H|H];
          [left; now apply Z.eqb_eq in H | right; now apply Z.leb_le in H]
    end.
Qed.

Lemma days_before_month_leap (y m : Z) :
  days_before_month y m = days_before_month_of (is_leap y) m.
Proof. reflexivity. Qed.

Lemma days_in_month_leap (y m : Z) :
  days_in_month y m = days_in_month_of (is_leap y) m.
Proof. reflexivity. Qed.

(** In the first cycle the date of the ordinal of a date is that date. *)
Lemma fromordinal_toordinal_first_cycle (y m d : Z) :
  1 <= y <= 400 -> 1 <= m <= 12 -> 1 <= d <= days_in_month y m ->
  fromordinal (toordinal {| year := y; month := m; day := d |})
  = {| year := y; month := m; day := d |}.
Proof.
  intros Hy Hm Hd. rewrite days_in_month_leap in Hd.
  destruct (year_checked y Hy)
    as (q400 & q100 & q4 & q1 & de & Hs & He & Hyear & Hspecial & Hleap & _ & Hlast & _).
  destruct (day_checked (is_leap y) m d Hm Hd) as [Hmd Hn].
  destruct (month_checked (is_leap y) m Hm) as (H0 & _ & _).
  unfold toordinal. cbn [year month day]. rewrite days_before_month_leap.
  set (n := days_before_month_of (is_leap y) m + d - 1) in *.
  replace (days_before_year y + days_before_month_of (is_leap y) m + d)
    with (days_before_year y + n + 1) by (unfold n; lia).
  destruct (Z_le_gt_dec n 364) as [Hin|Hout].
  - rewrite fromordinal_chain.
    replace (days_before_year y + n + 1 - 1) with (days_before_year y + n) by lia.
    rewrite (year_chain_between (days_before_year y) (days_before_year y + 364)
               (days_before_year y + n) q400 q100 q4 q1 0 de Hs He)
      by (unfold n; lia).
    cbv beta iota zeta. rewrite Hspecial, Hleap, Hyear.
    replace (0 + (days_before_year y + n - days_before_year y)) with n by lia.
    now rewrite Hmd.
  - destruct (is_leap y) eqn:Hl; [|lia].
    assert (Hn365 : n = 365) by lia.
    rewrite Hn365 in Hmd. vm_compute in Hmd. injection Hmd as <- <-.
    replace (days_before_year y + n + 1) with (days_before_year y + 366) by lia.
    now apply Hlast.
Qed.

(** For a date of the first cycle: the date of the ordinal before it is
    the day before; its ordinal is 2 at least, but for the first day of
    all; and its ordinal is within the years up to its own. *)
Lemma first_cycle_date (y m d : Z) :
  1 <= y <= 400 -> 1 <= m <= 12 -> 1 <= d <= days_in_month y m ->
  let dt := {| year := y; month := m; day := d |} in
  fromordinal (toordinal dt - 1) = day_before dt
  /\ (2 <= toordinal dt \/ (y = 1 /\ m = 1 /\ d = 1))
  /\ toordinal dt <= (if y =? 400 then 146097 else 145731).
Proof.
  intros Hy Hm Hd dt. subst dt.
  destruct (year_checked y Hy)
    as (q400 & q100 & q4 & q1 & de & _ & _ & _ & _ & _ & Hnext & _ & Hfirst & Hbound).
  pose proof Hd as Hd'. rewrite days_in_month_leap in Hd'.
  destruct (day_checked (is_leap y) m d Hm Hd') as [_ Hn].
  destruct (month_checked (is_leap y) m Hm) as (H0 & _ & Hstep).
  assert (Hord : toordinal {| year := y; month := m; day := d |}
                 = days_before_year y + days_before_month_of (is_leap y) m + d)
    by reflexivity.
  split; [|split].
  - unfold day_before. cbn [year month day].
    destruct (Z.ltb_spec 1 d) as [Hd1|Hd1].
    + (* a later day of the month *)
      rewrite <- (fromordinal_toordinal_first_cycle y m (d - 1)) by lia.
      f_equal. unfold toordinal; cbn [year month day]. lia.
    + destruct (Z.ltb_spec 1 m) as [Hm1|Hm1].
      * (* the first day of a later month *)
        destruct (month_checked (is_leap y) (m - 1) ltac:(lia)) as (_ & Hlen & _).
        rewrite <- (fromordinal_toordinal_first_cycle y (m - 1)
                      (days_in_month y (m - 1)))
          by (rewrite ?days_in_month_leap; lia).
        f_equal. unfold toordinal; cbn [year month day].
        rewrite !days_before_month_leap, days_in_month_leap, (Hstep ltac:(lia)). lia.
      * (* the first day of a year *)
        assert (m = 1) by lia. assert (d = 1) by lia. subst m d.
        destruct (Z.eq_dec y 1) as [->|Hy1]; [reflexivity|].
        destruct (year_checked (y - 1) ltac:(lia))
          as (p400 & p100 & p4 & p1 & pe & _ & _ & _ & _ & _ & Hprev & _).
        replace (y - 1 + 1) with y in Hprev by lia.
        rewrite <- (fromordinal_toordinal_first_cycle (y - 1) 12 31);
          [|lia|lia|].
        -- f_equal. unfold toordinal; cbn [year month day].
           rewrite !days_before_month_leap, Hprev.
           destruct (is_leap (y - 1)), (is_leap y);
             repeat match goal with
                    | |- context [days_before_month_of ?b ?k] =>
                        let v := eval vm_compute in (days_before_month_of b k) in
                        change (days_before_month_of b k) with v
                    end; lia.
        -- rewrite days_in_month_leap. destruct (is_leap (y - 1)); vm_compute;
             split; discriminate.
  - rewrite Hord. destruct Hfirst as [-> | Hs]; [|left; lia].
    change (days_before_year 1) with 0.
    destruct (Z.eq_dec d 1) as [->|Hd1]; [|left; lia].
    destruct (Z.eq_dec m 1) as [->|Hm1]; [right; auto|left].
    destruct (month_checked (is_leap 1) (m - 1) ltac:(lia)) as (Hb & Hlen & _).
    rewrite (Hstep ltac:(lia)). lia.
  - rewrite Hord. destruct (is_leap y); lia.
Qed.

(** The calendar repeats every 400 years, that is every 146097 days. *)
Lemma is_leap_cycles (y k : Z) : is_leap (y + 400 * k) = is_leap y.
Proof.
  unfold is_leap.
  replace (y + 400 * k) with (y + (100 * k) * 4) at 1 by lia.
  replace (y + 400 * k) with (y + (4 * k) * 100) at 1 by lia.
  replace (y + 400 * k) with (y + k * 400) by lia.
  now rewrite !Z.mod_add by lia.
Qed.

Lemma days_before_year_cycles (y k : Z) :
  days_before_year (y + 400 * k) = days_before_year y + 146097 * k.
Proof.
  unfold days_before_year. cbv zeta.
  replace (y + 400 * k - 1) with (y - 1 + 400 * k) by lia.
  replace ((y - 1 + 400 * k) / 4) with ((y - 1) / 4 + 100 * k)
    by (replace (y - 1 + 400 * k) with (y - 1 + (100 * k) * 4) by lia;
        now rewrite Z.div_add by lia).
  replace ((y - 1 + 400 * k) / 100) with ((y - 1) / 100 + 4 * k)
    by (replace (y - 1 + 400 * k) with (y - 1 + (4 * k) * 100) by lia;
        now rewrite Z.div_add by lia).
  replace ((y - 1 + 400 * k) / 400) with ((y - 1) / 400 + k)
    by (replace (y - 1 + 400 * k) with (y - 1 + k * 400) by lia;
        now rewrite Z.div_add by lia).
  lia.
Qed.

Lemma toordinal_cycles (k : Z) (d : date) :
  toordinal (cycles_later k d) = toordinal d + 146097 * k.
Proof.
  unfold toordinal, cycles_later, days_before_month. cbn [year month day].
  rewrite days_before_year_cycles, is_leap_cycles. lia.
Qed.

Lemma days_in_month_cycles (y m k : Z) :
  days_in_month (y + 400 * k) m = days_in_month y m.
Proof. unfold days_in_month. now rewrite is_leap_cycles. Qed.

Lemma day_before_cycles (k : Z) (d : date) :
  day_before (cycles_later k d) = cycles_later k (day_before d).
Proof.
  unfold day_before, cycles_later. cbn [year month day].
  rewrite days_in_month_cycles.
  destruct (1 <? day d); [reflexivity|].
  destruct (1 <? month d); cbn [year month day]; [reflexivity|].
  f_equal. lia.
Qed.

Lemma fromordinal_cycles (k n : Z) :
  fromordinal (n + 146097 * k) = cycles_later k (fromordinal n).
Proof.
  unfold fromordinal. cbv zeta.
  replace (n + 146097 * k - 1) with (n - 1 + k * 146097) by lia.
  rewrite Z.div_add, Z.mod_add by lia.
  set (r := (n - 1) mod 146097).
  set (q := (n - 1) / 146097).
  destruct ((r mod 36524 mod 1461 / 365 =? 4) || (r / 36524 =? 4)).
  { unfold cycles_later; cbn [year month day]. f_equal. lia. }
  match goal with |- (if ?c then _ else _) = _ => destruct c end;
    unfold cycles_later; cbn [year month day]; f_equal; lia.
Qed.

(** The day before a date [k] cycles after a date of the first cycle. *)
Lemma yesterday_in_cycle (k y0 m dd : Z) :
  0 <= k <= 24 -> 1 <= y0 <= 400 -> y0 + 400 * k <= 9999 ->
  1 <= m <= 12 -> 1 <= dd <= days_in_month y0 m ->
  (k = 0 -> y0 = 1 -> m = 1 -> dd = 1 -> False) ->
  date_sub_days (cycles_later k {| year := y0; month := m; day := dd |}) 1
  = inr (day_before (cycles_later k {| year := y0; month := m; day := dd |})).
Proof.
  intros Hk Hy0 Hy Hm Hd Hnot_first.
  destruct (first_cycle_date y0 m dd Hy0 Hm Hd) as (Hprev & Hlower & Hupper).
  remember {| year := y0; month := m; day := dd |} as d0 eqn:Hd0.
  assert (Hlow : 2 <= toordinal d0 + 146097 * k).
  { destruct Hlower as [H2 | (Hy1 & Hm1 & Hd1)]; [lia|].
    assert (Hone : toordinal d0 = 1) by (rewrite Hd0, Hy1, Hm1, Hd1; reflexivity).
    destruct (Z.eq_dec k 0) as [Hk0|Hk0]; [|lia].
    destruct (Hnot_first Hk0 Hy1 Hm1 Hd1). }
  assert (Hup : toordinal d0 + 146097 * k <= MAXORDINAL + 1).
  { unfold MAXORDINAL. revert Hupper.
    destruct (Z.eqb_spec y0 400) as [H400|H400]; intros Hupper; lia. }
  unfold date_sub_days. rewrite toordinal_cycles.
  replace ((0 <? toordinal d0 + 146097 * k - 1)
           && (toordinal d0 + 146097 * k - 1 <=? MAXORDINAL)) with true
    by (symmetry; apply andb_true_iff; split;
        [apply Z.ltb_lt | apply Z.leb_le]; lia).
  f_equal.
  replace (toordinal d0 + 146097 * k - 1) with (toordinal d0 - 1 + 146097 * k) by lia.
  now rewrite fromordinal_cycles, Hprev, day_before_cycles.
Qed.

(** X16.  The target date of the feed selector is the calendar day before
    today: for every date from 0001-01-02 to 9999-12-31,
    [today - timedelta(days=1)] is the same month's previous day, or the
    last day of the previous month (the 29th of February in a leap year),
    or the 31st of December of the previous year. *)
Theorem yesterday_is_day_before
    (d : date)
    (Hvalid : valid_date d)
    (Hnot_first : d <> {| year := 1; month := 1; day := 1 |}) :
  date_sub_days d 1 = inr (day_before d).
Proof.
  destruct d as [y m dd]. destruct Hvalid as (Hy & Hm & Hd).
  cbn [year month day] in Hy, Hm, Hd.
  pose proof (Z.div_mod (y - 1) 400 ltac:(lia)) as Hdiv.
  pose proof (Z.mod_pos_bound (y - 1) 400 ltac:(lia)) as Hmod.
  remember ((y - 1) / 400) as k eqn:Hk.
  remember (y - 400 * k) as y0 eqn:Hy0.
  assert (Hcycle : {| year := y; month := m; day := dd |}
                   = cycles_later k {| year := y0; month := m; day := dd |})
    by (unfold cycles_later; cbn [year month day]; f_equal; lia).
  rewrite Hcycle. apply yesterday_in_cycle; try lia.
  - replace y with (y0 + 400 * k) in Hd by lia.
    now rewrite days_in_month_cycles in Hd.
  - intros Hk0 Hy1 Hm1 Hd1. apply Hnot_first. f_equal; lia.
Qed.

(** The first of March of a leap year, and of a year that is not. *)
Lemma yesterday_is_day_before_witness :
  date_sub_days {| year := 2024; month := 3; day := 1 |} 1
  = inr {| year := 2024; month := 2; day := 29 |}
  /\ date_sub_days {| year := 2100; month := 3; day := 1 |} 1
     = inr {| year := 2100; month := 2; day := 28 |}.
Proof.
  split.
  - apply (yesterday_is_day_before {| year := 2024; month := 3; day := 1 |}).
    + unfold valid_date; cbn [year month day].
      change (days_in_month 2024 3) with 31. lia.
    + discriminate.
  - apply (yesterday_is_day_before {| year := 2100; month := 3; day := 1 |}).
    + unfold valid_date; cbn [year month day].
      change (days_in_month 2100 3) with 31. lia.
    + discriminate.
Defined.

(** ** The two ends of the routing statement *)

(** X17.  A paper is passed over before any message is built: when
    Platform is there and is not 'Superconducting circuits' and Type is
    'Experiment', the routing statement ends normally and sends nothing,
    whatever else the annotation holds or lacks. *)
Theorem handle_paper_suppressed
    (E : Env) (d : list (string * value)) (v_Platform : value) (w : World)
    (HPlatform : dict_get "Platform" d = Some v_Platform)
    (Hother : v_Platform <> VStr "Superconducting circuits")
    (HType : dict_get "Type" d = Some (VStr "Experiment")) :
  handle_paper E (VDict d) w = (inr tt, w).
Proof.
  unfold handle_paper, bind, lift, getitem_str. rewrite HPlatform.
  apply py_eq_str_false in Hother. rewrite Hother, HType. reflexivity.
Qed.

(** An ion-trap experiment with neither Topic nor Summary. *)
Lemma handle_paper_suppressed_witness :
  handle_paper (Script.host Script.jan16 [] [] 200)
    (VDict [("Type", VStr "Experiment"); ("Platform", VStr "Ion trap")]) []
  = (inr tt, []).
Proof.
  apply (handle_paper_suppressed (Script.host Script.jan16 [] [] 200)
           [("Type", VStr "Experiment"); ("Platform", VStr "Ion trap")]
           (VStr "Ion trap") [] eq_refl ltac:(discriminate) eq_refl).
Defined.

(** X18.  When the routing statement selects a channel and the message is
    built, the POST is made, and the statement ends as [requests.post]
    does: normally for any response, with the exception of
    [requests.post] when it raises one. *)
Theorem handle_paper_delivers
    (E : Env) (annotation blocks : value) (channel : string) (w : World)
    (Hroute : route annotation = inr (Destination channel))
    (Hblocks : generate_slack_message_block E annotation = inr blocks) :
  handle_paper E annotation w
  = (match requests_post E w slack_hook (json_dumps E blocks) with
     | inl e => inl e
     | inr _ => inr tt
     end,
     (w ++ [HttpPost channel slack_hook (json_dumps E blocks)])%list).
Proof.
  rewrite handle_paper_route, Hroute. unfold carry_out, bind, lift. rewrite Hblocks.
  destruct (route_outcomes annotation _ Hroute) as [H | [H | H]];
    [injection H as -> | discriminate H | injection H as ->].
  - rewrite post_message_to_slack_journal_hub.
    destruct (requests_post E w _ _); reflexivity.
  - rewrite post_message_to_slack_theory.
    destruct (requests_post E w _ _); reflexivity.
Qed.

(** The hook is down: the exception of [requests.post] ends the turn. *)
Lemma handle_paper_delivers_witness :
  handle_paper (host_without_feed TypeError)
    (VDict [("Type", VStr "Theory"); ("Platform", VNone); ("Topic", VNone);
            ("Summary", VStr "One."); ("title", VStr "First"); ("url", VStr "u")]) []
  = (inl (LibraryError "ConnectionError" "down"),
     [HttpPost "theory" slack_hook "<message First>"]).
Proof.
  apply (handle_paper_delivers (host_without_feed TypeError)
           (VDict [("Type", VStr "Theory"); ("Platform", VNone); ("Topic", VNone);
                   ("Summary", VStr "One."); ("title", VStr "First"); ("url", VStr "u")])
           _ "theory" [] eq_refl eq_refl).
Defined.
